(** * CloudRepository: the authenticated-request protocol of the Bali Nebula client

    A shallow embedding of [src/CloudRepository.js]: the fifteen operations of
    the object returned by [repository], and the two private functions
    [generateCredentials] and [sendRequest].

    - Every asynchronous call is awaited where it is made, so the code is
      modelled sequentially, in a state and exception monad.
    - The [World] that is threaded through records what the collaborators
      were asked to do: the tags drawn, the documents notarized, the requests
      handed to axios and the lines written to the error console.
    - The notary, the Bali component framework and the network below axios
      are not part of the module; they are the fields of [Collaborators].
      What the notary raises is its own: never an exception of this module.
    - [bali.exception] hands back a cause that is an exception of the same
      module instead of wrapping it ([baliException]).
    - [response.data] is the value axios hands over, which is the body or,
      when axios could parse the body, the value it denotes.
    - A JavaScript string is a [string], its [length] is [String.length]. *)

From Stdlib Require Import String Ascii ZArith Bool List Lia.
From stdpp Require Import gmap strings pretty.
Import ListNotations.

Local Open Scope string_scope.
Local Open Scope Z_scope.

(** ** Values *)

(** Components of the Bali framework as they occur in this module. *)
Inductive Component : Type :=
  | NONE                      (* bali.NONE *)
  | Str (s : string)          (* a JavaScript string used as is, eg. '$Private' *)
  | Text (s : string)         (* bali.text(s) *)
  | Reference (s : string)    (* bali.reference(s), a cloud URL *)
  | Tag (t : string)          (* bali.tag() *)
  | Version (v : string)      (* bali.version() *)
  | Num (z : Z).              (* a JavaScript number *)

(** A JavaScript number: a fraction, or an infinity. *)
Inductive Number : Type :=
  | Finite (numerator : Z) (denominator : positive)
  | Infinite (negative : bool).

(** What a facade function or [sendRequest] resolves to, and what axios
    hands over as [response.data]: the body as a string or, when axios
    could parse it, the value it denotes. *)
Inductive Value : Type :=
  | JsUndefined
  | JsNull
  | JsBoolean (b : bool)
  | JsNumber (n : Number)
  | JsString (s : string)
  | JsObject (json : string).   (* an object or an array, by its text *)

(** The optional [document] argument: left out (or any other falsy value
    that is not a string), a string, or a component (an object, always
    truthy) with its [toString()]. *)
Inductive Payload : Type :=
  | Absent
  | Source (s : string)
  | Parsed (s : string).

Definition nonEmpty (s : string) : bool := negb (String.eqb s EmptyString).

(** [value || undefined] keeps a value that is truthy. *)
Definition truthyValue (value : Value) : bool :=
  match value with
  | JsUndefined | JsNull => false
  | JsBoolean b => b
  | JsNumber (Finite numerator _) => negb (Z.eqb numerator 0)
  | JsNumber (Infinite _) => true
  | JsString s => nonEmpty s
  | JsObject _ => true
  end.

Definition truthy (document : Payload) : bool :=
  match document with
  | Absent => false
  | Source s => nonEmpty s
  | Parsed _ => true
  end.

Definition payloadString (document : Payload) : string :=
  match document with
  | Absent => EmptyString
  | Source s => s
  | Parsed s => s
  end.

(** A payload is attached when the argument is truthy and so is its string. *)
Definition present (document : Payload) : bool :=
  truthy document && nonEmpty (payloadString document).

(** A Bali document: its content and, when it has them, its parameters.
    The parameters are looked up and set by key; the order in which the
    framework keeps them is not modelled. *)
Record Document : Type := mkDocument {
  content : string;
  parameters : option (gmap string Component)
}.

(** ** HTTP *)

Record Response : Type := mkResponse {
  status : Z;
  statusText : string;
  data : Value
}.

(** [cause.request] of a failed call. *)
Record ClientRequest : Type := mkClientRequest {
  requestStatus : Z;
  requestStatusText : string
}.

Inductive HeaderValue : Type :=
  | HString (s : string)
  | HNumber (n : nat).

(** The [options] object handed to axios. *)
Record Options : Type := mkOptions {
  url : string;
  method : string;
  responseType : string;
  validateStatus : Z -> bool;
  headers : gmap string HeaderValue;
  body : option string
}.

(** What the network does with a request. *)
Inductive Reply : Type :=
  | Responded (response : Response) (request : ClientRequest)
  | Silent (request : ClientRequest)     (* sent, no response received *)
  | Unsent.                              (* could not be built or sent *)

(** ** Exceptions *)

#[warnings="-register-all"] Inductive Thrown : Type :=
  | Exception (attributes : list (string * Component)) (cause : option Thrown)
                                         (* bali.exception(attributes, cause) *)
  | AxiosError (response : option Response) (request : option ClientRequest)
  | TypeError                            (* raised by the JavaScript runtime *)
  | Failure (message : string).          (* raised by a collaborator *)

Definition attribute (key : string) (e : Thrown) : option Component :=
  match e with
  | Exception attributes _ =>
      snd <$> List.find (fun kv => String.eqb key (fst kv)) attributes
  | _ => None
  end.

(** An exception carries a value when one of its attributes holds it. *)
Definition carries (value : Component) (e : Thrown) : Prop :=
  exists key, attribute key e = Some value.

Definition causeOf (e : Thrown) : option Thrown :=
  match e with
  | Exception _ cause => cause
  | _ => None
  end.

(** bali.exception(attributes, cause) of the component framework: a cause
    that is itself an exception of the same $module is handed back as it is;
    any other cause is attached to a new exception. *)
Definition baliException (attributes : list (string * Component))
    (cause : option Thrown) : Thrown :=
  let exception := Exception attributes cause in
  match cause with
  | Some inner =>
      match attribute "$module" inner, attribute "$module" exception with
      | Some (Str theirs), Some (Str ours) =>
          if String.eqb theirs ours then inner else exception
      | _, _ => exception
      end
  | None => exception
  end.

(** An exception of this module. *)
Definition ownException (e : Thrown) : bool :=
  match attribute "$module" e with
  | Some (Str name) => String.eqb name "$CloudRepository"
  | _ => false
  end.

(** ** The world *)

Record World : Type := mkWorld {
  drawn : nat;                 (* tags generated so far by bali.tag() *)
  notarized : list Document;   (* documents handed to notary.notarizeDocument *)
  calls : list Options;        (* requests handed to axios, oldest first *)
  console : list string        (* lines written with console.error *)
}.

Definition drawTag (w : World) : World :=
  {| drawn := S (drawn w); notarized := notarized w;
     calls := calls w; console := console w |}.

Definition recordNotarized (document : Document) (w : World) : World :=
  {| drawn := drawn w; notarized := notarized w ++ [document];
     calls := calls w; console := console w |}.

Definition recordCall (options : Options) (w : World) : World :=
  {| drawn := drawn w; notarized := notarized w;
     calls := calls w ++ [options]; console := console w |}.

Definition recordLine (line : string) (w : World) : World :=
  {| drawn := drawn w; notarized := notarized w;
     calls := calls w; console := console w ++ [line] |}.

(** ** Collaborators: the notary, the Bali framework, the network *)

Class Collaborators : Type := {
  Credentials : Type;
  (* the digital notary; what it raises is not an exception of this module *)
  getAccount : option Component;
  getCitation : World -> Thrown + Document;
  notarizeDocument : Document -> World -> Thrown + Credentials;
  citationErrors : forall w e, getCitation w = inl e -> ownException e = false;
  notarizationErrors :
    forall document w e, notarizeDocument document w = inl e -> ownException e = false;
  (* bali-component-framework *)
  tag : nat -> string;                   (* the n-th tag drawn by bali.tag() *)
  version : string;                      (* bali.version() *)
  format : Credentials -> string;        (* bali.format(credentials, -1) *)
  exceptionToString : Thrown -> string;  (* exception.toString() *)
  (* the transport below axios *)
  network : Options -> World -> Reply
}.

(** ** A state and exception monad *)

Definition M (A : Type) : Type := World -> (Thrown + A) * World.

Definition ret {A : Type} (a : A) : M A := fun w => (inr a, w).

Definition throw {A : Type} (e : Thrown) : M A := fun w => (inl e, w).

Definition bind {A B : Type} (m : M A) (k : A -> M B) : M B :=
  fun w =>
    match m w with
    | (inl e, w') => (inl e, w')
    | (inr a, w') => k a w'
    end.

Definition tryCatch {A : Type} (block : M A) (handler : Thrown -> M A) : M A :=
  fun w =>
    match block w with
    | (inl cause, w') => handler cause w'
    | (inr a, w') => (inr a, w')
    end.

Notation "'await' x <- m ; k" := (bind m (fun x => k))
  (at level 60, x name, m at next level, right associativity).

Definition orNONE (c : option Component) : Component :=
  match c with
  | Some c => c
  | None => NONE
  end.

Definition textOrNONE (s : string) : Component :=
  if nonEmpty s then Text s else NONE.

Definition payloadOrNONE (document : Payload) : Component :=
  if truthy document then Str (payloadString document) else NONE.

Definition quote : string := String (ascii_of_nat 34) EmptyString.

(** [options.method], where a parameter called [method] is in scope. *)
Definition optionsMethod (options : Options) : string := method options.

(** ** Private functions *)

Section PrivateFunctions.
Context `{Collaborators}.

(** [bali.tag()]: a new tag is drawn each time. *)
Definition baliTag : M Component :=
  fun w => (inr (Tag (tag (drawn w))), drawTag w).

Definition notarize (document : Document) : M Credentials :=
  fun w => (notarizeDocument document w, recordNotarized document w).

(** A citation without parameters has none to set: the first
    [parameters.setParameter] fails before a tag is drawn. *)
Definition generateCredentials : M Credentials :=
  await citation <- (fun w => (getCitation w, w));
  let document := citation in   (* bali.duplicate(citation) *)
  match parameters document with
  | None => throw TypeError
  | Some parameters =>
      await t <- baliTag;
      let parameters := <["$tag" := t]> parameters in
      let parameters := <["$version" := Version version]> parameters in
      let parameters := <["$permissions" := Str "$Private"]> parameters in
      let parameters := <["$previous" := NONE]> parameters in
      await credentials <-
        notarize {| content := content document; parameters := Some parameters |};
      ret credentials
  end.

(** axios(options): the request is handed to the network.  A response
    resolves the promise when [options.validateStatus] accepts its status
    and rejects it otherwise, with an error that has the response; without
    a response the error has the request only, and when the request could
    not be set up it has neither. *)
Definition axios (options : Options) : M Response :=
  fun w =>
    let w' := recordCall options w in
    match network options w with
    | Responded response request =>
        if validateStatus options (status response) then (inr response, w')
        else (inl (AxiosError (Some response) (Some request)), w')
    | Silent request => (inl (AxiosError None (Some request)), w')
    | Unsent => (inl (AxiosError None None), w')
    end.

Definition invalidCombination (functionName method type : string) : Thrown :=
  Exception [
    ("$module", Str "$CloudRepository");
    ("$function", Str functionName);
    ("$exception", Str "$invalidParameter");
    ("$method", Text method);
    ("$type", Text type);
    ("$text", Text "An invalid method and document type combination was specified.")
  ] None.

(** The two nested switches of [sendRequest]: [None] when they fall through
    to the request, the exception they throw otherwise. *)
Definition analyzeParameters (functionName : string) (cloudURL : option string)
    (method type : string) : option Thrown :=
  if String.eqb type "certificate" then
    if String.eqb method "HEAD" || String.eqb method "POST" || String.eqb method "GET"
    then None
    else Some (Exception [
      ("$module", Str "$CloudRepository");
      ("$function", Str functionName);
      ("$exception", Str "$invalidParameter");
      ("$url", orNONE (Reference <$> cloudURL));
      ("$method", Text method);
      ("$type", Text type);
      ("$text", Text "An invalid method and document type combination was specified.")
    ] None)
  else if String.eqb type "draft" then
    if String.eqb method "HEAD" || String.eqb method "PUT" || String.eqb method "GET"
       || String.eqb method "DELETE"
    then None
    else Some (invalidCombination functionName method type)
  else if String.eqb type "document" then
    if String.eqb method "HEAD" || String.eqb method "POST" || String.eqb method "GET"
    then None
    else Some (invalidCombination functionName method type)
  else if String.eqb type "type" then
    if String.eqb method "HEAD" || String.eqb method "POST" || String.eqb method "GET"
    then None
    else Some (invalidCombination functionName method type)
  else if String.eqb type "queue" then
    if String.eqb method "PUT" || String.eqb method "GET"
    then None
    else Some (invalidCombination functionName method type)
  else Some (Exception [
    ("$module", Str "$CloudRepository");
    ("$function", Str functionName);
    ("$exception", Str "$invalidParameter");
    ("$parameter", Text type);
    ("$text", Text "An invalid document type was specified.")
  ] None).

(** [options.validateStatus]: only flag unexpected server errors. *)
Definition onlyUnexpected (status : Z) : bool := (status <? 400) || (status =? 404).

(** The request URL and options, with the headers for the data if applicable. *)
Definition requestOptions (credentials : Credentials) (base method type identifier : string)
    (document : Payload) : Options :=
  let fullURL := base ++ type ++ "/" ++ identifier in
  let options := {|
    url := fullURL;
    method := method;
    responseType := "text";
    validateStatus := onlyUnexpected;
    headers := {[ "Nebula-Credentials" := HString (quote ++ format credentials ++ quote) ]};
    body := None
  |} in
  let data := if truthy document then Some (payloadString document) else None in
  match data with
  | Some data =>
      if nonEmpty data then {|
        url := url options;
        method := optionsMethod options;
        responseType := responseType options;
        validateStatus := validateStatus options;
        headers := <["Content-Length" := HNumber (String.length data)]>
                     (<["Content-Type" := HString "application/bali"]> (headers options));
        body := Some data
      |} else options
  | None => options
  end.

(** The [switch (method)] on the response. *)
Definition interpret (method : string) (response : Response) : Value :=
  if String.eqb method "HEAD" || String.eqb method "DELETE"
  then JsBoolean (negb (status response =? 404))
  else if truthyValue (data response) then data response else JsUndefined.

(** The [catch (cause)] of the request. *)
Definition translate (functionName : string) (options : Options) (method : string)
    (cause : Thrown) : Thrown :=
  match cause with
  | AxiosError (Some response) _ =>
      (* the server responded with an error status *)
      Exception [
        ("$module", Str "$CloudRepository");
        ("$function", Str functionName);
        ("$exception", Str "$invalidRequest");
        ("$url", Reference (url options));
        ("$method", Text method);
        ("$status", Num (status response));
        ("$details", Text (statusText response));
        ("$text", Text "The request was rejected by the Bali Nebula™.")
      ] None
  | AxiosError None (Some request) =>
      (* the request was sent but no response was received *)
      Exception [
        ("$module", Str "$CloudRepository");
        ("$function", Str functionName);
        ("$exception", Str "$serverDown");
        ("$url", Reference (url options));
        ("$method", Text method);
        ("$status", Num (requestStatus request));
        ("$details", Text (requestStatusText request));
        ("$text", Text "The request received no response.")
      ] None
  | _ =>
      (* the request could not be sent *)
      Exception [
        ("$module", Str "$CloudRepository");
        ("$function", Str functionName);
        ("$exception", Str "$malformedRequest");
        ("$url", Reference (url options));
        ("$method", Text (optionsMethod options));
        ("$text", Text "The request was not formed correctly.")
      ] None
  end.

Definition sendRequest (credentials : Credentials) (functionName : string)
    (cloudURL : option string) (method type identifier : string)
    (document : Payload) : M Value :=
  (* analyze the parameters *)
  match analyzeParameters functionName cloudURL method type with
  | Some exception => throw exception
  | None =>
      (* setup the request URL and options *)
      match cloudURL with
      | None => throw TypeError    (* cloudURL.getValue() of nothing *)
      | Some base =>
          let options := requestOptions credentials base method type identifier document in
          (* send the request *)
          tryCatch
            (await response <- axios options;
             ret (interpret method response))
            (fun cause => throw (translate functionName options method cause))
      end
  end.

End PrivateFunctions.

(** ** The repository *)

Section Repository.
Context `{Collaborators}.
Variable cloudURL : option string.   (* the reference given to [repository], if any *)
Variable debug : bool.               (* debug || false *)

Definition account : option Component := getAccount.

Definition consoleError (line : string) : M unit :=
  fun w => (inr tt, recordLine line w).

Definition certificateExists (certificateId : string) : M Value :=
  tryCatch
    (await credentials <- generateCredentials;
     await status <-
       sendRequest credentials "$certificateExists" cloudURL "HEAD" "certificate"
         certificateId Absent;
     ret status)
    (fun cause =>
       let exception := baliException [
         ("$module", Str "$CloudRepository");
         ("$function", Str "$certificateExists");
         ("$exception", Str "$unexpected");
         ("$account", orNONE account);
         ("$url", orNONE (Reference <$> cloudURL));
         ("$certificateId", textOrNONE certificateId);
         ("$text", Text "An unexpected error occurred while attempting check to see if the certificate exists.")
       ] (Some cause) in
       await _ <- (if debug then consoleError (exceptionToString exception)
                   else ret tt);
       throw exception).

Definition fetchCertificate (certificateId : string) : M Value :=
  tryCatch
    (await credentials <- generateCredentials;
     await certificate <-
       sendRequest credentials "$fetchCertificate" cloudURL "GET" "certificate"
         certificateId Absent;
     ret certificate)
    (fun cause =>
       let exception := baliException [
         ("$module", Str "$CloudRepository");
         ("$function", Str "$fetchCertificate");
         ("$exception", Str "$unexpected");
         ("$account", orNONE account);
         ("$url", orNONE (Reference <$> cloudURL));
         ("$certificateId", textOrNONE certificateId);
         ("$text", Text "An unexpected error occurred while attempting to fetch the certificate.")
       ] (Some cause) in
       await _ <- (if debug then consoleError (exceptionToString exception)
                   else ret tt);
       throw exception).

Definition createCertificate (certificateId : string) (certificate : Payload) : M Value :=
  tryCatch
    (await credentials <- generateCredentials;
     await _ <-
       sendRequest credentials "$createCertificate" cloudURL "POST" "certificate"
         certificateId certificate;
     ret JsUndefined)
    (fun cause =>
       let exception := baliException [
         ("$module", Str "$CloudRepository");
         ("$function", Str "$createCertificate");
         ("$exception", Str "$unexpected");
         ("$account", orNONE account);
         ("$url", orNONE (Reference <$> cloudURL));
         ("$certificateId", textOrNONE certificateId);
         ("$certificate", payloadOrNONE certificate);
         ("$text", Text "An unexpected error occurred while attempting to create the certificate.")
       ] (Some cause) in
       await _ <- (if debug then consoleError (exceptionToString exception)
                   else ret tt);
       throw exception).

Definition draftExists (draftId : string) : M Value :=
  tryCatch
    (await credentials <- generateCredentials;
     await status <-
       sendRequest credentials "$draftExists" cloudURL "HEAD" "draft"
         draftId Absent;
     ret status)
    (fun cause =>
       let exception := baliException [
         ("$module", Str "$CloudRepository");
         ("$function", Str "$draftExists");
         ("$exception", Str "$unexpected");
         ("$account", orNONE account);
         ("$url", orNONE (Reference <$> cloudURL));
         ("$draftId", textOrNONE draftId);
         ("$text", Text "An unexpected error occurred while attempting check to see if the draft exists.")
       ] (Some cause) in
       await _ <- (if debug then consoleError (exceptionToString exception)
                   else ret tt);
       throw exception).

Definition fetchDraft (draftId : string) : M Value :=
  tryCatch
    (await credentials <- generateCredentials;
     await draft <-
       sendRequest credentials "$fetchDraft" cloudURL "GET" "draft"
         draftId Absent;
     ret draft)
    (fun cause =>
       let exception := baliException [
         ("$module", Str "$CloudRepository");
         ("$function", Str "$fetchDraft");
         ("$exception", Str "$unexpected");
         ("$account", orNONE account);
         ("$url", orNONE (Reference <$> cloudURL));
         ("$draftId", textOrNONE draftId);
         ("$text", Text "An unexpected error occurred while attempting to fetch the draft.")
       ] (Some cause) in
       await _ <- (if debug then consoleError (exceptionToString exception)
                   else ret tt);
       throw exception).

Definition saveDraft (draftId : string) (draft : Payload) : M Value :=
  tryCatch
    (await credentials <- generateCredentials;
     await _ <-
       sendRequest credentials "$saveDraft" cloudURL "PUT" "draft"
         draftId draft;
     ret JsUndefined)
    (fun cause =>
       let exception := baliException [
         ("$module", Str "$CloudRepository");
         ("$function", Str "$saveDraft");
         ("$exception", Str "$unexpected");
         ("$account", orNONE account);
         ("$url", orNONE (Reference <$> cloudURL));
         ("$draftId", textOrNONE draftId);
         ("$draft", payloadOrNONE draft);
         ("$text", Text "An unexpected error occurred while attempting to create the draft.")
       ] (Some cause) in
       await _ <- (if debug then consoleError (exceptionToString exception)
                   else ret tt);
       throw exception).

Definition deleteDraft (draftId : string) : M Value :=
  tryCatch
    (await credentials <- generateCredentials;
     await _ <-
       sendRequest credentials "$deleteDraft" cloudURL "DELETE" "draft"
         draftId Absent;
     ret JsUndefined)
    (fun cause =>
       let exception := baliException [
         ("$module", Str "$CloudRepository");
         ("$function", Str "$deleteDraft");
         ("$exception", Str "$unexpected");
         ("$account", orNONE account);
         ("$url", orNONE (Reference <$> cloudURL));
         ("$draftId", textOrNONE draftId);
         ("$text", Text "An unexpected error occurred while attempting to delete the draft.")
       ] (Some cause) in
       await _ <- (if debug then consoleError (exceptionToString exception)
                   else ret tt);
       throw exception).

Definition documentExists (documentId : string) : M Value :=
  tryCatch
    (await credentials <- generateCredentials;
     await status <-
       sendRequest credentials "$documentExists" cloudURL "HEAD" "document"
         documentId Absent;
     ret status)
    (fun cause =>
       let exception := baliException [
         ("$module", Str "$CloudRepository");
         ("$function", Str "$documentExists");
         ("$exception", Str "$unexpected");
         ("$account", orNONE account);
         ("$url", orNONE (Reference <$> cloudURL));
         ("$documentId", textOrNONE documentId);
         ("$text", Text "An unexpected error occurred while attempting check to see if the document exists.")
       ] (Some cause) in
       await _ <- (if debug then consoleError (exceptionToString exception)
                   else ret tt);
       throw exception).

Definition fetchDocument (documentId : string) : M Value :=
  tryCatch
    (await credentials <- generateCredentials;
     await document <-
       sendRequest credentials "$fetchDocument" cloudURL "GET" "document"
         documentId Absent;
     ret document)
    (fun cause =>
       let exception := baliException [
         ("$module", Str "$CloudRepository");
         ("$function", Str "$fetchDocument");
         ("$exception", Str "$unexpected");
         ("$account", orNONE account);
         ("$url", orNONE (Reference <$> cloudURL));
         ("$documentId", textOrNONE documentId);
         ("$text", Text "An unexpected error occurred while attempting to fetch the document.")
       ] (Some cause) in
       await _ <- (if debug then consoleError (exceptionToString exception)
                   else ret tt);
       throw exception).

Definition createDocument (documentId : string) (document : Payload) : M Value :=
  tryCatch
    (await credentials <- generateCredentials;
     await _ <-
       sendRequest credentials "$createDocument" cloudURL "POST" "document"
         documentId document;
     ret JsUndefined)
    (fun cause =>
       let exception := baliException [
         ("$module", Str "$CloudRepository");
         ("$function", Str "$createDocument");
         ("$exception", Str "$unexpected");
         ("$account", orNONE account);
         ("$url", orNONE (Reference <$> cloudURL));
         ("$documentId", textOrNONE documentId);
         ("$document", payloadOrNONE document);
         ("$text", Text "An unexpected error occurred while attempting to create the document.")
       ] (Some cause) in
       await _ <- (if debug then consoleError (exceptionToString exception)
                   else ret tt);
       throw exception).

Definition typeExists (typeId : string) : M Value :=
  tryCatch
    (await credentials <- generateCredentials;
     await status <-
       sendRequest credentials "$typeExists" cloudURL "HEAD" "type"
         typeId Absent;
     ret status)
    (fun cause =>
       let exception := baliException [
         ("$module", Str "$CloudRepository");
         ("$function", Str "$typeExists");
         ("$exception", Str "$unexpected");
         ("$account", orNONE account);
         ("$url", orNONE (Reference <$> cloudURL));
         ("$typeId", textOrNONE typeId);
         ("$text", Text "An unexpected error occurred while attempting check to see if the type exists.")
       ] (Some cause) in
       await _ <- (if debug then consoleError (exceptionToString exception)
                   else ret tt);
       throw exception).

Definition fetchType (typeId : string) : M Value :=
  tryCatch
    (await credentials <- generateCredentials;
     await type <-
       sendRequest credentials "$fetchType" cloudURL "GET" "type"
         typeId Absent;
     ret type)
    (fun cause =>
       let exception := baliException [
         ("$module", Str "$CloudRepository");
         ("$function", Str "$fetchType");
         ("$exception", Str "$unexpected");
         ("$account", orNONE account);
         ("$url", orNONE (Reference <$> cloudURL));
         ("$typeId", textOrNONE typeId);
         ("$text", Text "An unexpected error occurred while attempting to fetch the type.")
       ] (Some cause) in
       await _ <- (if debug then consoleError (exceptionToString exception)
                   else ret tt);
       throw exception).

Definition createType (typeId : string) (type : Payload) : M Value :=
  tryCatch
    (await credentials <- generateCredentials;
     await _ <-
       sendRequest credentials "$createType" cloudURL "POST" "type"
         typeId type;
     ret JsUndefined)
    (fun cause =>
       let exception := baliException [
         ("$module", Str "$CloudRepository");
         ("$function", Str "$createType");
         ("$exception", Str "$unexpected");
         ("$account", orNONE account);
         ("$url", orNONE (Reference <$> cloudURL));
         ("$typeId", textOrNONE typeId);
         ("$type", payloadOrNONE type);
         ("$text", Text "An unexpected error occurred while attempting to create the type.")
       ] (Some cause) in
       await _ <- (if debug then consoleError (exceptionToString exception)
                   else ret tt);
       throw exception).

Definition queueMessage (queueId : string) (message : Payload) : M Value :=
  tryCatch
    (await credentials <- generateCredentials;
     await _ <-
       sendRequest credentials "$queueMessage" cloudURL "PUT" "queue"
         queueId message;
     ret JsUndefined)
    (fun cause =>
       let exception := baliException [
         ("$module", Str "$CloudRepository");
         ("$function", Str "$queueMessage");
         ("$exception", Str "$unexpected");
         ("$account", orNONE account);
         ("$url", orNONE (Reference <$> cloudURL));
         ("$queueId", textOrNONE queueId);
         ("$message", payloadOrNONE message);
         ("$text", Text "An unexpected error occurred while attempting to queue the message.")
       ] (Some cause) in
       await _ <- (if debug then consoleError (exceptionToString exception)
                   else ret tt);
       throw exception).

Definition dequeueMessage (queueId : string) : M Value :=
  tryCatch
    (await credentials <- generateCredentials;
     await message <-
       sendRequest credentials "$dequeueMessage" cloudURL "GET" "queue"
         queueId Absent;
     ret message)
    (fun cause =>
       let exception := baliException [
         ("$module", Str "$CloudRepository");
         ("$function", Str "$dequeueMessage");
         ("$exception", Str "$unexpected");
         ("$account", orNONE account);
         ("$url", orNONE (Reference <$> cloudURL));
         ("$queueId", textOrNONE queueId);
         ("$text", Text "An unexpected error occurred while attempting to dequeue the message.")
       ] (Some cause) in
       await _ <- (if debug then consoleError (exceptionToString exception)
                   else ret tt);
       throw exception).

End Repository.

(** The functions of the repository object, by name. *)
Inductive Operation : Type :=
  | CertificateExists
  | FetchCertificate
  | CreateCertificate
  | DraftExists
  | FetchDraft
  | SaveDraft
  | DeleteDraft
  | DocumentExists
  | FetchDocument
  | CreateDocument
  | TypeExists
  | FetchType
  | CreateType
  | QueueMessage
  | DequeueMessage.

(** Calling a function of the repository object; the functions of one
    parameter are called with the identifier alone. *)
Definition invoke `{Collaborators} (cloudURL : option string) (debug : bool)
    (operation : Operation) (identifier : string) (document : Payload) : M Value :=
  match operation with
  | CertificateExists => certificateExists cloudURL debug identifier
  | FetchCertificate => fetchCertificate cloudURL debug identifier
  | CreateCertificate => createCertificate cloudURL debug identifier document
  | DraftExists => draftExists cloudURL debug identifier
  | FetchDraft => fetchDraft cloudURL debug identifier
  | SaveDraft => saveDraft cloudURL debug identifier document
  | DeleteDraft => deleteDraft cloudURL debug identifier
  | DocumentExists => documentExists cloudURL debug identifier
  | FetchDocument => fetchDocument cloudURL debug identifier
  | CreateDocument => createDocument cloudURL debug identifier document
  | TypeExists => typeExists cloudURL debug identifier
  | FetchType => fetchType cloudURL debug identifier
  | CreateType => createType cloudURL debug identifier document
  | QueueMessage => queueMessage cloudURL debug identifier document
  | DequeueMessage => dequeueMessage cloudURL debug identifier
  end.

(** ** The call made by each function *)

(** The name each function reports to [sendRequest] and in its exception. *)
Definition functionName (operation : Operation) : string :=
  match operation with
  | CertificateExists => "$certificateExists"
  | FetchCertificate => "$fetchCertificate"
  | CreateCertificate => "$createCertificate"
  | DraftExists => "$draftExists"
  | FetchDraft => "$fetchDraft"
  | SaveDraft => "$saveDraft"
  | DeleteDraft => "$deleteDraft"
  | DocumentExists => "$documentExists"
  | FetchDocument => "$fetchDocument"
  | CreateDocument => "$createDocument"
  | TypeExists => "$typeExists"
  | FetchType => "$fetchType"
  | CreateType => "$createType"
  | QueueMessage => "$queueMessage"
  | DequeueMessage => "$dequeueMessage"
  end.

(** The attribute under which each function reports its identifier. *)
Definition identifierKey (operation : Operation) : string :=
  match operation with
  | CertificateExists => "$certificateId"
  | FetchCertificate => "$certificateId"
  | CreateCertificate => "$certificateId"
  | DraftExists => "$draftId"
  | FetchDraft => "$draftId"
  | SaveDraft => "$draftId"
  | DeleteDraft => "$draftId"
  | DocumentExists => "$documentId"
  | FetchDocument => "$documentId"
  | CreateDocument => "$documentId"
  | TypeExists => "$typeId"
  | FetchType => "$typeId"
  | CreateType => "$typeId"
  | QueueMessage => "$queueId"
  | DequeueMessage => "$queueId"
  end.

(** The attribute under which a function of two parameters reports its document. *)
Definition payloadKey (operation : Operation) : option string :=
  match operation with
  | CertificateExists => None
  | FetchCertificate => None
  | CreateCertificate => Some "$certificate"
  | DraftExists => None
  | FetchDraft => None
  | SaveDraft => Some "$draft"
  | DeleteDraft => None
  | DocumentExists => None
  | FetchDocument => None
  | CreateDocument => Some "$document"
  | TypeExists => None
  | FetchType => None
  | CreateType => Some "$type"
  | QueueMessage => Some "$message"
  | DequeueMessage => None
  end.

(** Whether the function returns what [sendRequest] resolved to. *)
Definition returnsOutcome (operation : Operation) : bool :=
  match operation with
  | CertificateExists => true
  | FetchCertificate => true
  | CreateCertificate => false
  | DraftExists => true
  | FetchDraft => true
  | SaveDraft => false
  | DeleteDraft => false
  | DocumentExists => true
  | FetchDocument => true
  | CreateDocument => false
  | TypeExists => true
  | FetchType => true
  | CreateType => false
  | QueueMessage => false
  | DequeueMessage => true
  end.

(** The kind each function passes to [sendRequest]. *)
Definition kindOf (operation : Operation) : string :=
  match operation with
  | CertificateExists => "certificate"
  | FetchCertificate => "certificate"
  | CreateCertificate => "certificate"
  | DraftExists => "draft"
  | FetchDraft => "draft"
  | SaveDraft => "draft"
  | DeleteDraft => "draft"
  | DocumentExists => "document"
  | FetchDocument => "document"
  | CreateDocument => "document"
  | TypeExists => "type"
  | FetchType => "type"
  | CreateType => "type"
  | QueueMessage => "queue"
  | DequeueMessage => "queue"
  end.

(** The method each function passes to [sendRequest]. *)
Definition methodOf (operation : Operation) : string :=
  match operation with
  | CertificateExists => "HEAD"
  | FetchCertificate => "GET"
  | CreateCertificate => "POST"
  | DraftExists => "HEAD"
  | FetchDraft => "GET"
  | SaveDraft => "PUT"
  | DeleteDraft => "DELETE"
  | DocumentExists => "HEAD"
  | FetchDocument => "GET"
  | CreateDocument => "POST"
  | TypeExists => "HEAD"
  | FetchType => "GET"
  | CreateType => "POST"
  | QueueMessage => "PUT"
  | DequeueMessage => "GET"
  end.

Definition takesPayload (operation : Operation) : bool :=
  match payloadKey operation with
  | Some _ => true
  | None => false
  end.

(** ** The specification's own wording, to compare the code with *)

(** Request validation: the table from resource kind to allowed methods. *)
Definition allowedMethods : list (string * list string) :=
  [ ("certificate", ["HEAD"; "GET"; "POST"]);
    ("draft", ["HEAD"; "GET"; "PUT"; "DELETE"]);
    ("document", ["HEAD"; "GET"; "POST"]);
    ("type", ["HEAD"; "GET"; "POST"]);
    ("queue", ["PUT"; "GET"]) ].

Definition knownKind (kind : string) : bool :=
  existsb (fun row => String.eqb kind (fst row)) allowedMethods.

Definition allowed (kind method : string) : bool :=
  existsb (fun row => String.eqb kind (fst row) && existsb (String.eqb method) (snd row))
    allowedMethods.

(** Status-code policy: below 400, or 404, is not exceptional. *)
Definition nonExceptional (status : Z) : Prop := status < 400 \/ status = 404.

(** ** The shape shared by the fifteen functions *)

Definition attempt `{Collaborators} (cloudURL : option string)
    (operation : Operation) (identifier : string) (document : Payload) : M Value :=
  await credentials <- generateCredentials;
  sendRequest credentials (functionName operation) cloudURL (methodOf operation)
    (kindOf operation) identifier (if takesPayload operation then document else Absent).

Definition unexpected `{Collaborators} (cloudURL : option string)
    (operation : Operation) (text : string) (identifier : string) (document : Payload)
    (cause : Thrown) : Thrown :=
  baliException
    ([ ("$module", Str "$CloudRepository");
       ("$function", Str (functionName operation));
       ("$exception", Str "$unexpected");
       ("$account", orNONE account);
       ("$url", orNONE (Reference <$> cloudURL));
       (identifierKey operation, textOrNONE identifier) ]
     ++ match payloadKey operation with
        | Some key => [ (key, payloadOrNONE document) ]
        | None => []
        end
     ++ [ ("$text", Text text) ])
    (Some cause).

Definition facade `{Collaborators} (cloudURL : option string) (debug : bool)
    (operation : Operation) (text : string) (identifier : string) (document : Payload)
    : M Value :=
  tryCatch
    (await credentials <- generateCredentials;
     await outcome <-
       sendRequest credentials (functionName operation) cloudURL (methodOf operation)
         (kindOf operation) identifier (if takesPayload operation then document else Absent);
     ret (if returnsOutcome operation then outcome else JsUndefined))
    (fun cause =>
       let exception := unexpected cloudURL operation text identifier document cause in
       await _ <- (if debug then consoleError (exceptionToString exception)
                   else ret tt);
       throw exception).

Definition logged (debug : bool) (line : string) (w : World) : World :=
  if debug then recordLine line w else w.

(** What the exception of a function reports of a failure it wraps: the
    kind $unexpected, the function, the account, the url, the identifier
    and, for the functions that take one, the payload (each replaced by none
    when missing or empty), and the failure as its cause. *)
Definition reported `{Collaborators} (cloudURL : option string) (operation : Operation)
    (identifier : string) (document : Payload) (cause exception : Thrown) : Prop :=
  attribute "$exception" exception = Some (Str "$unexpected")
  /\ attribute "$function" exception = Some (Str (functionName operation))
  /\ attribute "$account" exception = Some (orNONE account)
  /\ attribute "$url" exception = Some (orNONE (Reference <$> cloudURL))
  /\ attribute (identifierKey operation) exception
     = Some (if nonEmpty identifier then Text identifier else NONE)
  /\ (forall key, payloadKey operation = Some key ->
      attribute key exception
      = Some (if truthy document then Str (payloadString document) else NONE))
  /\ causeOf exception = Some cause.

(** The document a credential is made of: the citation's content, and its
    parameters after the four [setParameter] calls. *)
Definition stamped (citation : Document) (params : gmap string Component) (t : string)
    `{Collaborators} : Document :=
  {| content := content citation;
     parameters := Some (<["$previous" := NONE]> (<["$permissions" := Str "$Private"]>
                     (<["$version" := Version version]> (<["$tag" := Tag t]> params)))) |}.

(** The value of a parameter of a document, if it has it. *)
Definition parameter (key : string) (document : Document) : option Component :=
  match parameters document with
  | Some params => params !! key
  | None => None
  end.

(** The identity a document claims. *)
Definition identity (document : Document) : option Component * option Component :=
  match parameters document with
  | Some params => (params !! "$tag", params !! "$version")
  | None => (None, None)
  end.

(** The kind of an exception, and of its cause. *)
Definition kinds (result : Thrown + Value) : option Component * option Component :=
  match result with
  | inl exception =>
      (attribute "$exception" exception,
       match causeOf exception with
       | Some cause => attribute "$exception" cause
       | None => None
       end)
  | inr _ => (None, None)
  end.

(** ** A concrete notary, framework and network *)

Module Scenario.

Definition citation : Document :=
  {| content := "[$protocol: v1]";
     parameters := Some {[ "$tag" := Tag "#ACCOUNT"; "$version" := Version "v3";
                           "$permissions" := Str "$Public"; "$previous" := Text "older";
                           "$type" := Str "$Citation" ]} |}.

(** A notary that always signs, a framework whose n-th tag is the numeral
    of n, and a network that answers every request with [reply]. *)
Definition collaborators (reply : Reply) : Collaborators :=
  {| Credentials := Document;
     getAccount := Some (Tag "#ACCOUNT");
     getCitation := fun _ => inr citation;
     notarizeDocument := fun document _ => inr document;
     citationErrors := ltac:(intros w e Hraised; discriminate Hraised);
     notarizationErrors := ltac:(intros document w e Hraised; discriminate Hraised);
     tag := fun n => "#" ++ pretty n;
     version := "v1";
     format := content;
     exceptionToString := fun e =>
       match attribute "$exception" e with
       | Some (Str kind) => kind
       | _ => "error"
       end;
     network := fun _ _ => reply |}.

Definition start : World :=
  {| drawn := 0%nat; notarized := []; calls := []; console := [] |}.

Definition sent : ClientRequest := {| requestStatus := 0; requestStatusText := EmptyString |}.

Definition answer (code : Z) (text payload : string) : Reply :=
  Responded {| status := code; statusText := text; data := JsString payload |} sent.

Definition base : option string := Some "https://bali-nebula.net/repository/".

End Scenario.

(** ** A caller of the repository *)

(** One call of a function of the repository object. *)
Record Call : Type := mkCall {
  callOperation : Operation;
  callIdentifier : string;
  callDocument : Payload
}.

(** A caller that awaits one call after the other, whatever each one gives. *)
Fixpoint session `{Collaborators} (cloudURL : option string) (debug : bool)
    (script : list Call) (w : World) : World :=
  match script with
  | [] => w
  | call :: rest =>
      session cloudURL debug rest
        (snd (invoke cloudURL debug (callOperation call) (callIdentifier call)
                (callDocument call) w))
  end.

(** The exception that [sendRequest] raises for a request rejected with
    the status [code], as it is: not wrapped, without cause. *)
Definition rejected (code : Z) (e : Thrown) : Prop :=
  attribute "$exception" e = Some (Str "$invalidRequest")
  /\ attribute "$module" e = Some (Str "$CloudRepository")
  /\ attribute "$status" e = Some (Num code)
  /\ causeOf e = None.

(** The identity of the [i]-th credential ever generated. *)
Definition identityOf `{Collaborators} (i : nat) : option Component * option Component :=
  (Some (Tag (tag i)), Some (Version version)).

(** ** Notaries that fail, and a citation that was renewed *)

Module Outage.

(** The citation of [Scenario] after a renewal: the same content, another
    identity. *)
Definition renewed : Document :=
  {| content := "[$protocol: v1]";
     parameters := Some {[ "$tag" := Tag "#RENEWED"; "$version" := Version "v4";
                           "$permissions" := Str "$Public"; "$previous" := Text "v3";
                           "$type" := Str "$Citation" ]} |}.


(** The notary gives the renewed citation once something was written to
    the console, and the first one before. *)
Definition byConsole (w : World) : Document :=
  match console w with
  | [] => Scenario.citation
  | _ :: _ => renewed
  end.

(** A notary with the citation [citation], that notarizes when [signs]. *)
Definition notary (citation : World -> Document) (signs : bool) (reply : Reply)
    : Collaborators :=
  {| Credentials := Document;
     getAccount := Some (Tag "#ACCOUNT");
     getCitation := fun w => inr (citation w);
     notarizeDocument := fun document _ =>
       if signs then inr document else inl (Failure "the key is not loaded");
     citationErrors := ltac:(intros w e Hraised; discriminate Hraised);
     notarizationErrors :=
       ltac:(intros document w e Hraised; destruct signs;
             [discriminate Hraised | injection Hraised as <-; reflexivity]);
     tag := fun n => "#" ++ pretty n;
     version := "v1";
     format := content;
     exceptionToString := fun _ => "exception";
     network := fun _ _ => reply |}.

Definition later : World :=
  {| drawn := 0%nat; notarized := []; calls := []; console := ["earlier"] |}.

End Outage.

(** * Properties *)

Section Properties.
Context `{Collaborators}.

(** ** How the functions run *)

Lemma invoke_facade (cloudURL : option string) (operation : Operation) :
  exists text, forall debug identifier document,
    invoke cloudURL debug operation identifier document
    = facade cloudURL debug operation text identifier document.
Proof.
  destruct operation; eexists; intros debug identifier document; reflexivity.
Qed.

Lemma facade_run cloudURL debug operation text identifier document w :
  facade cloudURL debug operation text identifier document w
  = match attempt cloudURL operation identifier document w with
    | (inr outcome, w') =>
        (inr (if returnsOutcome operation then outcome else JsUndefined), w')
    | (inl cause, w') =>
        let exception := unexpected cloudURL operation text identifier document cause in
        (inl exception, logged debug (exceptionToString exception) w')
    end.
Proof.
  unfold facade, attempt, tryCatch, bind, logged.
  destruct (generateCredentials w) as [[cause | credentials] w1]; simpl.
  - destruct debug; reflexivity.
  - destruct (sendRequest _ _ _ _ _ _ _ w1) as [[cause | outcome] w2]; simpl;
      [destruct debug|]; reflexivity.
Qed.

Lemma generateCredentials_run w :
  generateCredentials w
  = match getCitation w with
    | inl cause => (inl cause, w)
    | inr citation =>
        match parameters citation with
        | None => (inl TypeError, w)
        | Some params =>
            let document := stamped citation params (tag (drawn w)) in
            (notarizeDocument document (drawTag w),
             recordNotarized document (drawTag w))
        end
    end.
Proof.
  unfold generateCredentials, bind.
  destruct (getCitation w) as [cause | citation]; [reflexivity|].
  destruct (parameters citation) as [params|]; [|reflexivity].
  unfold baliTag, notarize, ret, stamped.
  destruct (notarizeDocument _ _); reflexivity.
Qed.

Lemma requestOptions_validateStatus credentials base method type identifier document :
  validateStatus (requestOptions credentials base method type identifier document)
  = onlyUnexpected.
Proof.
  unfold requestOptions.
  destruct (truthy document); [destruct (nonEmpty _)|]; reflexivity.
Qed.

Lemma sendRequest_run credentials functionName cloudURL method type identifier document w :
  sendRequest credentials functionName cloudURL method type identifier document w
  = match analyzeParameters functionName cloudURL method type with
    | Some exception => (inl exception, w)
    | None =>
        match cloudURL with
        | None => (inl TypeError, w)
        | Some base =>
            let options := requestOptions credentials base method type identifier document in
            match network options w with
            | Responded response request =>
                if onlyUnexpected (status response)
                then (inr (interpret method response), recordCall options w)
                else (inl (translate functionName options method
                             (AxiosError (Some response) (Some request))),
                      recordCall options w)
            | Silent request =>
                (inl (translate functionName options method (AxiosError None (Some request))),
                 recordCall options w)
            | Unsent =>
                (inl (translate functionName options method (AxiosError None None)),
                 recordCall options w)
            end
        end
    end.
Proof.
  unfold sendRequest.
  destruct (analyzeParameters _ _ _ _); [reflexivity|].
  destruct cloudURL as [base|]; [|reflexivity].
  unfold tryCatch, bind, axios, throw, ret.
  rewrite requestOptions_validateStatus.
  destruct (network _ w) as [response request | request |]; try reflexivity.
  destruct (onlyUnexpected _); reflexivity.
Qed.

(** ** Request validation *)

Ltac case_kind type :=
  destruct (String.eqb_spec type "certificate") as [-> | ?];
    [ | destruct (String.eqb_spec type "draft") as [-> | ?];
      [ | destruct (String.eqb_spec type "document") as [-> | ?];
        [ | destruct (String.eqb_spec type "type") as [-> | ?];
          [ | destruct (String.eqb_spec type "queue") as [-> | ?] ] ] ] ].

Ltac case_method method :=
  destruct (String.eqb method "HEAD"), (String.eqb method "GET"),
    (String.eqb method "POST"), (String.eqb method "PUT"), (String.eqb method "DELETE").

Lemma allowed_iff_analyzed functionName cloudURL method type :
  allowed type method = true <-> analyzeParameters functionName cloudURL method type = None.
Proof.
  unfold allowed, analyzeParameters, invalidCombination; simpl.
  case_kind type; simpl; case_method method; simpl; split; congruence.
Qed.

(** C3, as amended: a (kind, method) pair passes the switches of [sendRequest]
    exactly when it is in the table certificate {HEAD, GET, POST}, draft
    {HEAD, GET, PUT, DELETE}, document {HEAD, GET, POST}, type {HEAD, GET, POST},
    queue {PUT, GET}.  For any other pair [sendRequest] throws an
    $invalidParameter exception and leaves the world as it was, so no HTTP
    call is issued.  For a known kind the exception carries the method and
    the kind; for an unknown kind it carries the kind alone, as $parameter,
    and no method. *)
Theorem sendRequest_validation
    credentials functionName cloudURL method type identifier document w :
  if allowed type method
  then analyzeParameters functionName cloudURL method type = None
  else exists exception,
      sendRequest credentials functionName cloudURL method type identifier document w
      = (inl exception, w)
      /\ attribute "$exception" exception = Some (Str "$invalidParameter")
      /\ attribute "$function" exception = Some (Str functionName)
      /\ causeOf exception = None
      /\ if knownKind type
         then attribute "$method" exception = Some (Text method)
              /\ attribute "$type" exception = Some (Text type)
         else attribute "$parameter" exception = Some (Text type)
              /\ attribute "$method" exception = None.
Proof.
  rewrite sendRequest_run.
  unfold allowed, knownKind, analyzeParameters, invalidCombination; simpl.
  case_kind type; simpl; case_method method; simpl;
    first [ reflexivity | eexists; repeat split; reflexivity ].
Qed.

(** ** Status policy and response interpretation *)

Lemma onlyUnexpected_spec status : onlyUnexpected status = true <-> nonExceptional status.
Proof. unfold onlyUnexpected, nonExceptional. lia. Qed.

Lemma onlyUnexpected_failure status :
  onlyUnexpected status = false <-> 400 <= status /\ status <> 404.
Proof. unfold onlyUnexpected. lia. Qed.

Lemma nonEmpty_spec s : nonEmpty s = false <-> s = EmptyString.
Proof. unfold nonEmpty; destruct s; simpl; split; congruence. Qed.

Lemma interpret_method method response :
  interpret method response
  = if existsb (String.eqb method) ["HEAD"; "DELETE"]
    then JsBoolean (negb (status response =? 404))
    else if truthyValue (data response) then data response else JsUndefined.
Proof. unfold interpret; simpl. rewrite orb_false_r. reflexivity. Qed.

(** The status policy and the reading of the answer, for every request: a
    status below 400 or equal to 404 is not exceptional, any other status
    is raised as $invalidRequest; HEAD and DELETE give the boolean
    (status != 404), the other methods give [response.data] when it is
    truthy and undefined otherwise, whatever the status. *)
Lemma status_policy
    credentials functionName base method type identifier document w response request :
  allowed type method = true ->
  network (requestOptions credentials base method type identifier document) w
    = Responded response request ->
  match fst (sendRequest credentials functionName (Some base) method type identifier
               document w) with
  | inr outcome =>
      nonExceptional (status response)
      /\ outcome = if existsb (String.eqb method) ["HEAD"; "DELETE"]
                   then JsBoolean (negb (status response =? 404))
                   else if truthyValue (data response)
                        then data response else JsUndefined
  | inl exception =>
      400 <= status response /\ status response <> 404
      /\ attribute "$exception" exception = Some (Str "$invalidRequest")
      /\ attribute "$status" exception = Some (Num (status response))
  end.
Proof.
  intros Hallowed Hnetwork.
  rewrite sendRequest_run.
  apply (allowed_iff_analyzed functionName (Some base)) in Hallowed.
  rewrite Hallowed; simpl. rewrite Hnetwork.
  destruct (onlyUnexpected (status response)) eqn:Hstatus; simpl.
  - split; [apply onlyUnexpected_spec; assumption|].
    apply interpret_method.
  - apply onlyUnexpected_failure in Hstatus.
    repeat split; solve [ apply Hstatus | reflexivity ].
Qed.

(** ** Transport failures *)

Lemma requestOptions_method credentials base method type identifier document :
  optionsMethod (requestOptions credentials base method type identifier document) = method.
Proof.
  unfold requestOptions.
  destruct (truthy document); [destruct (nonEmpty _)|]; reflexivity.
Qed.

Lemma requestOptions_url credentials base method type identifier document :
  url (requestOptions credentials base method type identifier document)
  = base ++ type ++ "/" ++ identifier.
Proof.
  unfold requestOptions.
  destruct (truthy document); [destruct (nonEmpty _)|]; reflexivity.
Qed.

(** C4, as amended: every failure of the HTTP call is turned into exactly
    one of three exceptions: $invalidRequest when a response was received
    (its status is then at or above 400 and not 404), $serverDown when the
    request was sent but no response was received, and $malformedRequest
    when the request could not be built or sent.  Each carries the url and
    the method, and the first two the status and status text taken from the
    low-level error; none of them has a cause attached. *)
Theorem transport_failure_classified
    credentials functionName base method type identifier document w cause w' :
  allowed type method = true ->
  let options := requestOptions credentials base method type identifier document in
  axios options w = (inl cause, w') ->
  exists exception,
    sendRequest credentials functionName (Some base) method type identifier document w
    = (inl exception, w')
    /\ causeOf exception = None
    /\ attribute "$url" exception = Some (Reference (base ++ type ++ "/" ++ identifier))
    /\ attribute "$method" exception = Some (Text method)
    /\ match network options w with
       | Responded response _ =>
           400 <= status response /\ status response <> 404
           /\ attribute "$exception" exception = Some (Str "$invalidRequest")
           /\ attribute "$status" exception = Some (Num (status response))
           /\ attribute "$details" exception = Some (Text (statusText response))
       | Silent request =>
           attribute "$exception" exception = Some (Str "$serverDown")
           /\ attribute "$status" exception = Some (Num (requestStatus request))
           /\ attribute "$details" exception = Some (Text (requestStatusText request))
       | Unsent =>
           attribute "$exception" exception = Some (Str "$malformedRequest")
       end.
Proof.
  intros Hallowed options Haxios.
  rewrite sendRequest_run.
  apply (allowed_iff_analyzed functionName (Some base)) in Hallowed.
  rewrite Hallowed; simpl. fold options.
  unfold axios in Haxios.
  pose proof (requestOptions_validateStatus credentials base method type identifier document)
    as Hvalidate.
  pose proof (requestOptions_method credentials base method type identifier document)
    as Hmethod.
  pose proof (requestOptions_url credentials base method type identifier document)
    as Hurl.
  fold options in Hvalidate, Hmethod, Hurl. rewrite Hvalidate in Haxios.
  destruct (network options w) as [response request | request |].
  - destruct (onlyUnexpected (status response)) eqn:Hstatus; [discriminate Haxios|].
    apply onlyUnexpected_failure in Hstatus.
    injection Haxios as <- <-.
    eexists; split; [reflexivity|]; simpl; rewrite Hurl.
    repeat split; solve [ apply Hstatus | reflexivity ].
  - injection Haxios as <- <-.
    eexists; split; [reflexivity|]; simpl; rewrite Hurl.
    repeat split; reflexivity.
  - injection Haxios as <- <-.
    eexists; split; [reflexivity|]; simpl; rewrite Hurl, Hmethod.
    repeat split; reflexivity.
Qed.

(** ** The request that is dispatched *)

Lemma requestOptions_present credentials base method type identifier document :
  requestOptions credentials base method type identifier document
  = {| url := base ++ type ++ "/" ++ identifier;
       method := method;
       responseType := "text";
       validateStatus := onlyUnexpected;
       headers :=
         if present document
         then <["Content-Length" := HNumber (String.length (payloadString document))]>
                (<["Content-Type" := HString "application/bali"]>
                   {[ "Nebula-Credentials" := HString (quote ++ format credentials ++ quote) ]})
         else {[ "Nebula-Credentials" := HString (quote ++ format credentials ++ quote) ]};
       body := if present document then Some (payloadString document) else None |}.
Proof.
  unfold requestOptions, present.
  destruct (truthy document); [destruct (nonEmpty _)|]; reflexivity.
Qed.

Lemma sendRequest_calls credentials functionName base method type identifier document w :
  allowed type method = true ->
  calls (snd (sendRequest credentials functionName (Some base) method type identifier
                document w))
  = (calls w ++ [requestOptions credentials base method type identifier document])%list.
Proof.
  intros Hallowed.
  rewrite sendRequest_run.
  apply (allowed_iff_analyzed functionName (Some base)) in Hallowed.
  rewrite Hallowed; simpl.
  destruct (network _ w) as [response request | request |]; try reflexivity.
  destruct (onlyUnexpected _); reflexivity.
Qed.

(** C6: for every dispatched request the target URL is the base address
    followed by the kind, a slash and the identifier; the credential,
    formatted and wrapped in double quotes, is the Nebula-Credentials
    header; and when a payload is present it is the request body, with a
    Content-Type header and a Content-Length equal to the length of the
    body.  Without a payload there is no body and neither header. *)
Theorem dispatched_request
    credentials functionName base method type identifier document w :
  allowed type method = true ->
  exists options,
    calls (snd (sendRequest credentials functionName (Some base) method type identifier
                  document w))
    = (calls w ++ [options])%list
    /\ url options = base ++ type ++ "/" ++ identifier
    /\ optionsMethod options = method
    /\ headers options !! "Nebula-Credentials"
       = Some (HString (quote ++ format credentials ++ quote))
    /\ if present document
       then body options = Some (payloadString document)
            /\ headers options !! "Content-Type" = Some (HString "application/bali")
            /\ headers options !! "Content-Length"
               = Some (HNumber (String.length (payloadString document)))
       else body options = None
            /\ headers options !! "Content-Type" = None
            /\ headers options !! "Content-Length" = None.
Proof.
  intros Hallowed.
  eexists; split; [apply sendRequest_calls; assumption|].
  rewrite requestOptions_present; unfold optionsMethod; simpl.
  destruct (present document); repeat split;
    rewrite ?lookup_insert_eq, ?lookup_insert_ne, ?lookup_singleton_eq,
      ?lookup_singleton_ne by discriminate;
    reflexivity.
Qed.

(** ** The functions of the repository *)

Lemma operation_allowed operation : allowed (kindOf operation) (methodOf operation) = true.
Proof. destruct operation; reflexivity. Qed.

Lemma generateCredentials_quiet w :
  calls (snd (generateCredentials w)) = calls w
  /\ console (snd (generateCredentials w)) = console w.
Proof.
  rewrite generateCredentials_run.
  destruct (getCitation w) as [cause | citation]; [split; reflexivity|].
  destruct (parameters citation); split; reflexivity.
Qed.

Lemma attempt_run cloudURL operation identifier document w :
  attempt cloudURL operation identifier document w
  = match generateCredentials w with
    | (inl cause, w1) => (inl cause, w1)
    | (inr credentials, w1) =>
        sendRequest credentials (functionName operation) cloudURL (methodOf operation)
          (kindOf operation) identifier
          (if takesPayload operation then document else Absent) w1
    end.
Proof.
  unfold attempt, bind.
  destruct (generateCredentials w) as [[cause | credentials] w1]; reflexivity.
Qed.

Lemma invoke_run cloudURL operation :
  exists text, forall debug identifier document w,
    invoke cloudURL debug operation identifier document w
    = match attempt cloudURL operation identifier document w with
      | (inr outcome, w') =>
          (inr (if returnsOutcome operation then outcome else JsUndefined), w')
      | (inl cause, w') =>
          let exception := unexpected cloudURL operation text identifier document cause in
          (inl exception, logged debug (exceptionToString exception) w')
      end.
Proof.
  destruct (invoke_facade cloudURL operation) as [text Hfacade].
  exists text; intros debug identifier document w.
  rewrite Hfacade. apply facade_run.
Qed.

Lemma logged_calls debug line w : calls (logged debug line w) = calls w.
Proof. destruct debug; reflexivity. Qed.

Lemma invoke_calls cloudURL debug operation identifier document w :
  calls (snd (invoke cloudURL debug operation identifier document w))
  = (calls w ++
     match generateCredentials w, cloudURL with
     | (inr credentials, _), Some base =>
         [requestOptions credentials base (methodOf operation) (kindOf operation) identifier
            (if takesPayload operation then document else Absent)]
     | _, _ => []
     end)%list.
Proof.
  destruct (invoke_run cloudURL operation) as [text Hrun].
  rewrite Hrun, attempt_run.
  destruct (generateCredentials_quiet w) as [Hcalls _].
  destruct (generateCredentials w) as [[cause | credentials] w1]; simpl in *.
  - rewrite logged_calls, app_nil_r. assumption.
  - destruct cloudURL as [base|].
    + rewrite <- Hcalls.
      rewrite <- (sendRequest_calls credentials (functionName operation) base
                    (methodOf operation) (kindOf operation) identifier
                    (if takesPayload operation then document else Absent) w1
                    (operation_allowed operation)).
      destruct (sendRequest _ _ _ _ _ _ _ w1) as [[cause | outcome] w2]; simpl;
        [apply logged_calls | reflexivity].
    + rewrite sendRequest_run.
      pose proof (operation_allowed operation) as Hallowed.
      apply (allowed_iff_analyzed (functionName operation) None) in Hallowed.
      rewrite Hallowed; simpl.
      rewrite logged_calls, app_nil_r. assumption.
Qed.

(** C7: each function issues its request with the method of the mapping:
    the exists functions use HEAD, the fetch functions and dequeueMessage
    use GET, the create functions use POST, saveDraft and queueMessage use
    PUT, and deleteDraft uses DELETE.  When a credential was generated and
    the repository has a URL exactly one request goes out, to the
    function's kind; otherwise none does. *)
Theorem facade_method cloudURL debug operation identifier document w :
  match generateCredentials w, cloudURL with
  | (inr _, _), Some base =>
      exists options,
        calls (snd (invoke cloudURL debug operation identifier document w))
        = (calls w ++ [options])%list
        /\ optionsMethod options
           = match operation with
             | CertificateExists | DraftExists | DocumentExists | TypeExists => "HEAD"
             | FetchCertificate | FetchDraft | FetchDocument | FetchType => "GET"
             | CreateCertificate | CreateDocument | CreateType => "POST"
             | SaveDraft => "PUT"
             | DeleteDraft => "DELETE"
             | QueueMessage => "PUT"
             | DequeueMessage => "GET"
             end
        /\ url options = base ++ kindOf operation ++ "/" ++ identifier
  | _, _ => calls (snd (invoke cloudURL debug operation identifier document w)) = calls w
  end.
Proof.
  rewrite invoke_calls.
  destruct (generateCredentials w) as [[cause | credentials] w1].
  - apply app_nil_r.
  - destruct cloudURL as [base|]; [|apply app_nil_r].
    eexists; split; [reflexivity|].
    rewrite requestOptions_method, requestOptions_url.
    split; [destruct operation|]; reflexivity.
Qed.

(** ** What is wrapped and what is not *)

Lemma unexpected_own cloudURL operation text identifier document cause :
  ownException cause = true ->
  unexpected cloudURL operation text identifier document cause = cause.
Proof.
  unfold unexpected, baliException, ownException; simpl.
  destruct (attribute "$module" cause) as [[ | name | | | | | ] | ]; try discriminate.
  intros Hown. rewrite Hown. reflexivity.
Qed.

Lemma unexpected_foreign cloudURL operation text identifier document cause :
  ownException cause = false ->
  reported cloudURL operation identifier document cause
    (unexpected cloudURL operation text identifier document cause).
Proof.
  intros Hforeign.
  assert (Hwrapped :
    exists attributes,
      unexpected cloudURL operation text identifier document cause
      = Exception attributes (Some cause)
      /\ attributes
         = ([ ("$module", Str "$CloudRepository");
              ("$function", Str (functionName operation));
              ("$exception", Str "$unexpected");
              ("$account", orNONE account);
              ("$url", orNONE (Reference <$> cloudURL));
              (identifierKey operation, textOrNONE identifier) ]
            ++ match payloadKey operation with
               | Some key => [ (key, payloadOrNONE document) ]
               | None => []
               end
            ++ [ ("$text", Text text) ])%list).
  { eexists; split; [|reflexivity].
    unfold unexpected, baliException, ownException in *; simpl in *.
    destruct (attribute "$module" cause) as [[ | name | | | | | ] | ]; try reflexivity.
    rewrite Hforeign. reflexivity. }
  destruct Hwrapped as (attributes & -> & ->).
  unfold reported.
  destruct operation; repeat split; try reflexivity;
    intros key Hkey; try discriminate Hkey; injection Hkey as <-; reflexivity.
Qed.

Lemma generateCredentials_foreign w cause w' :
  generateCredentials w = (inl cause, w') -> ownException cause = false.
Proof.
  rewrite generateCredentials_run.
  destruct (getCitation w) as [raised | citation] eqn:Hcitation.
  - intros Hfailed. injection Hfailed as <- _.
    exact (citationErrors w raised Hcitation).
  - destruct (parameters citation) as [params|].
    + cbv zeta.
      destruct (notarizeDocument _ _) as [raised | credentials] eqn:Hnotarized;
        intros Hfailed; [|discriminate Hfailed].
      injection Hfailed as <- _.
      exact (notarizationErrors _ _ raised Hnotarized).
    + intros Hfailed. injection Hfailed as <- _. reflexivity.
Qed.

Lemma translate_own functionName options method cause :
  ownException (translate functionName options method cause) = true.
Proof.
  destruct cause as [attributes inner | [response|] [request|] | | message]; reflexivity.
Qed.

Lemma translate_kind functionName options method cause :
  causeOf (translate functionName options method cause) = None
  /\ (attribute "$exception" (translate functionName options method cause)
      = Some (Str "$invalidRequest")
      \/ attribute "$exception" (translate functionName options method cause)
         = Some (Str "$serverDown")
      \/ attribute "$exception" (translate functionName options method cause)
         = Some (Str "$malformedRequest")).
Proof.
  destruct cause as [attributes inner | [response|] [request|] | | message];
    (split; [reflexivity|]);
    solve [ left; reflexivity | right; left; reflexivity | right; right; reflexivity ].
Qed.

(** C9: when the payload given to createCertificate, saveDraft,
    createDocument, createType or queueMessage is the empty string, or any
    value whose string form is empty, the request goes out with no body and
    without the Content-Type and Content-Length headers, and is the request
    that goes out when no payload is given. *)
Theorem empty_payload_sends_no_body
    base debug operation identifier document w credentials w1 :
  takesPayload operation = true ->
  payloadString document = EmptyString ->
  generateCredentials w = (inr credentials, w1) ->
  exists options,
    calls (snd (invoke (Some base) debug operation identifier document w))
    = (calls w ++ [options])%list
    /\ calls (snd (invoke (Some base) debug operation identifier Absent w))
       = (calls w ++ [options])%list
    /\ body options = None
    /\ headers options !! "Content-Type" = None
    /\ headers options !! "Content-Length" = None.
Proof.
  intros Htakes Hempty Hcredentials.
  rewrite !invoke_calls, Hcredentials, Htakes.
  assert (Hpresent : present document = false).
  { unfold present. rewrite Hempty. apply andb_false_r. }
  eexists; split; [reflexivity|].
  rewrite !requestOptions_present, Hpresent; simpl.
  repeat split; apply lookup_singleton_ne; discriminate.
Qed.

(** C10: every function passes [sendRequest] a kind and a method of the
    allowed table, so the $invalidParameter branches are never taken through
    the repository object: once a credential is generated, the call of
    [sendRequest] that the function makes, with its own name, method and
    kind, passes the two switches, one request is handed to axios when the
    repository has a URL, and no function ever raises an $invalidParameter
    exception. *)
Theorem facade_passes_validation cloudURL debug operation identifier document w :
  allowed (kindOf operation) (methodOf operation) = true
  /\ analyzeParameters (functionName operation) cloudURL (methodOf operation)
       (kindOf operation) = None
  /\ match generateCredentials w, cloudURL with
     | (inr credentials, _), Some base =>
         calls (snd (invoke cloudURL debug operation identifier document w))
         = (calls w ++
            [requestOptions credentials base (methodOf operation) (kindOf operation)
               identifier (if takesPayload operation then document else Absent)])%list
     | _, _ => calls (snd (invoke cloudURL debug operation identifier document w)) = calls w
     end
  /\ forall exception,
       fst (invoke cloudURL debug operation identifier document w) = inl exception ->
       attribute "$exception" exception <> Some (Str "$invalidParameter").
Proof.
  pose proof (operation_allowed operation) as Hallowed.
  split; [assumption|].
  apply (allowed_iff_analyzed (functionName operation) cloudURL) in Hallowed.
  split; [assumption|].
  split.
  { rewrite invoke_calls.
    destruct (generateCredentials w) as [[cause | credentials] w1];
      [apply app_nil_r|].
    destruct cloudURL as [base|]; [reflexivity | apply app_nil_r]. }
  intros exception Hfailed.
  destruct (invoke_run cloudURL operation) as [text Hrun].
  rewrite Hrun, attempt_run in Hfailed.
  destruct (generateCredentials w) as [[cause | credentials] w1] eqn:Hcredentials.
  - cbn [fst] in Hfailed. injection Hfailed as <-.
    apply generateCredentials_foreign in Hcredentials.
    destruct (unexpected_foreign cloudURL operation text identifier document cause
                Hcredentials) as [Hkind _].
    rewrite Hkind. discriminate.
  - rewrite sendRequest_run, Hallowed in Hfailed.
    destruct cloudURL as [base|].
    + cbv zeta in Hfailed.
      assert (Hbare : forall cause,
                ownException cause = true ->
                attribute "$exception" cause <> Some (Str "$invalidParameter") ->
                attribute "$exception"
                  (unexpected (Some base) operation text identifier document cause)
                <> Some (Str "$invalidParameter")).
      { intros cause Hown Hkind. rewrite unexpected_own; assumption. }
      destruct (network _ w1) as [response request | request |].
      * destruct (onlyUnexpected _); cbn [fst] in Hfailed; [discriminate Hfailed|].
        injection Hfailed as <-. apply Hbare; [reflexivity | discriminate].
      * cbn [fst] in Hfailed. injection Hfailed as <-.
        apply Hbare; [reflexivity | discriminate].
      * cbn [fst] in Hfailed. injection Hfailed as <-.
        apply Hbare; [reflexivity | discriminate].
    + cbn [fst] in Hfailed. injection Hfailed as <-.
      destruct (unexpected_foreign None operation text identifier document TypeError
                  eq_refl) as [Hkind _].
      rewrite Hkind. discriminate.
Qed.

(** C8: the outcome returned and the exception raised by a function are the
    same whether the debug flag is true or false; with the flag the wrapped
    exception is also written to the error console before it is raised, and
    that line is the only difference. *)
Theorem debug_only_logs cloudURL operation identifier document w :
  let quiet := invoke cloudURL false operation identifier document w in
  let verbose := invoke cloudURL true operation identifier document w in
  fst verbose = fst quiet
  /\ drawn (snd verbose) = drawn (snd quiet)
  /\ notarized (snd verbose) = notarized (snd quiet)
  /\ calls (snd verbose) = calls (snd quiet)
  /\ console (snd verbose)
     = (console (snd quiet) ++
        match fst quiet with
        | inl exception => [exceptionToString exception]
        | inr _ => []
        end)%list.
Proof.
  destruct (invoke_run cloudURL operation) as [text Hrun].
  simpl. rewrite !Hrun.
  destruct (attempt cloudURL operation identifier document w) as [[cause | outcome] w'];
    simpl.
  - repeat split; reflexivity.
  - rewrite app_nil_r. repeat split; reflexivity.
Qed.


(** ** Credentials *)

Lemma stamped_parameters citation params t :
  exists stamp,
    parameters (stamped citation params t) = Some stamp
    /\ stamp !! "$tag" = Some (Tag t)
    /\ stamp !! "$version" = Some (Version version)
    /\ stamp !! "$permissions" = Some (Str "$Private")
    /\ stamp !! "$previous" = Some NONE
    /\ forall key, key <> "$tag" -> key <> "$version" -> key <> "$permissions" ->
         key <> "$previous" -> stamp !! key = params !! key.
Proof.
  eexists; split; [reflexivity|].
  repeat split;
    try (rewrite ?lookup_insert_eq, ?lookup_insert_ne, ?lookup_insert_eq by discriminate;
         reflexivity).
  intros key Htag Hversion Hpermissions Hprevious.
  rewrite !lookup_insert_ne by congruence. reflexivity.
Qed.

Lemma identity_stamped citation params t :
  identity (stamped citation params t) = (Some (Tag t), Some (Version version)).
Proof.
  destruct (stamped_parameters citation params t)
    as (stamp & Hstamp & Htag & Hversion & _).
  unfold identity. rewrite Hstamp, Htag, Hversion. reflexivity.
Qed.

Lemma generateCredentials_notarized w :
  (notarized (snd (generateCredentials w)) = notarized w
   /\ drawn (snd (generateCredentials w)) = drawn w)
  \/ (exists citation params,
        getCitation w = inr citation /\ parameters citation = Some params
        /\ notarized (snd (generateCredentials w))
           = (notarized w ++ [stamped citation params (tag (drawn w))])%list
        /\ drawn (snd (generateCredentials w)) = S (drawn w)).
Proof.
  rewrite generateCredentials_run.
  destruct (getCitation w) as [cause | citation]; [left; split; reflexivity|].
  destruct (parameters citation) as [params|] eqn:Hparams; [|left; split; reflexivity].
  right. exists citation, params. repeat split; [assumption | reflexivity..].
Qed.

Lemma sendRequest_keeps credentials functionName cloudURL method type identifier document w :
  drawn (snd (sendRequest credentials functionName cloudURL method type identifier
                document w)) = drawn w
  /\ notarized (snd (sendRequest credentials functionName cloudURL method type identifier
                       document w)) = notarized w.
Proof.
  rewrite sendRequest_run.
  destruct (analyzeParameters _ _ _ _); [split; reflexivity|].
  destruct cloudURL as [base|]; [|split; reflexivity]. simpl.
  destruct (network _ w) as [response request | request |]; try (split; reflexivity).
  destruct (onlyUnexpected _); split; reflexivity.
Qed.

Lemma invoke_keeps cloudURL debug operation identifier document w :
  drawn (snd (invoke cloudURL debug operation identifier document w))
  = drawn (snd (generateCredentials w))
  /\ notarized (snd (invoke cloudURL debug operation identifier document w))
     = notarized (snd (generateCredentials w)).
Proof.
  destruct (invoke_run cloudURL operation) as [text Hrun].
  rewrite Hrun, attempt_run.
  destruct (generateCredentials w) as [[cause | credentials] w1]; simpl.
  - destruct debug; split; reflexivity.
  - pose proof (sendRequest_keeps credentials (functionName operation) cloudURL
                  (methodOf operation) (kindOf operation) identifier
                  (if takesPayload operation then document else Absent) w1) as Hkeeps.
    destruct (sendRequest _ _ _ _ _ _ _ w1) as [[cause | outcome] w2]; simpl in *;
      [destruct debug|]; exact Hkeeps.
Qed.

(** C5: every function generates a credential of its own for its one
    request, and that request carries it; a credential is generated by
    taking the citation of the notary, copying it, setting its $tag to a
    newly drawn tag, its $version to a new version, its $permissions to
    $Private and its $previous to none, leaving the other parameters as they
    were, and having the notary notarize the result.  Tags being unique,
    two consecutive generations never notarize documents of the same
    tag and version. *)
Theorem credentials_minted_per_request cloudURL debug :
  (forall i j, tag i = tag j -> i = j) ->
  (forall w citation params,
     getCitation w = inr citation -> parameters citation = Some params ->
     exists document stamp,
       generateCredentials w
       = (notarizeDocument document (drawTag w), recordNotarized document (drawTag w))
       /\ content document = content citation
       /\ parameters document = Some stamp
       /\ stamp !! "$tag" = Some (Tag (tag (drawn w)))
       /\ stamp !! "$version" = Some (Version version)
       /\ stamp !! "$permissions" = Some (Str "$Private")
       /\ stamp !! "$previous" = Some NONE
       /\ forall key, key <> "$tag" -> key <> "$version" -> key <> "$permissions" ->
            key <> "$previous" -> stamp !! key = params !! key)
  /\ (forall operation identifier document w,
        let after := snd (invoke cloudURL debug operation identifier document w) in
        drawn after = drawn (snd (generateCredentials w))
        /\ notarized after = notarized (snd (generateCredentials w))
        /\ forall options, calls after = (calls w ++ [options])%list ->
             exists credentials,
               fst (generateCredentials w) = inr credentials
               /\ headers options !! "Nebula-Credentials"
                  = Some (HString (quote ++ format credentials ++ quote)))
  /\ (forall w w1 w2 first second,
        w1 = snd (generateCredentials w) ->
        w2 = snd (generateCredentials w1) ->
        notarized w2 = (notarized w ++ [first; second])%list ->
        identity first <> identity second).
Proof.
  intros Hunique. split; [|split].
  - intros w citation params Hcitation Hparams.
    destruct (stamped_parameters citation params (tag (drawn w))) as (stamp & Hstamp & Hrest).
    exists (stamped citation params (tag (drawn w))), stamp.
    rewrite generateCredentials_run, Hcitation, Hparams.
    split; [reflexivity|]. split; [reflexivity|]. split; assumption.
  - intros operation identifier document w after. subst after.
    destruct (invoke_keeps cloudURL debug operation identifier document w)
      as [Hdrawn Hnotarized].
    split; [assumption|]. split; [assumption|].
    intros options Hcalls.
    rewrite invoke_calls in Hcalls. apply app_inv_head in Hcalls.
    destruct (generateCredentials w) as [[cause | credentials] w1];
      [discriminate Hcalls|].
    destruct cloudURL as [base|]; [|discriminate Hcalls].
    injection Hcalls as <-.
    exists credentials; split; [reflexivity|].
    rewrite requestOptions_present; simpl.
    destruct (present _);
      rewrite ?lookup_insert_ne by discriminate; apply lookup_singleton_eq.
  - intros w w1 w2 first second Hw1 Hw2 Hnotarized.
    destruct (generateCredentials_notarized w)
      as [[Hsame1 Hdrawn1] | (citation1 & params1 & _ & _ & Hadded1 & Hdrawn1)];
      destruct (generateCredentials_notarized w1)
        as [[Hsame2 Hdrawn2] | (citation2 & params2 & _ & _ & Hadded2 & Hdrawn2)];
      rewrite <- Hw1 in *; rewrite <- Hw2 in *.
    + rewrite Hsame2, Hsame1 in Hnotarized.
      rewrite <- (app_nil_r (notarized w)) in Hnotarized at 1.
      apply app_inv_head in Hnotarized. discriminate Hnotarized.
    + rewrite Hadded2, Hsame1 in Hnotarized.
      apply app_inv_head in Hnotarized. discriminate Hnotarized.
    + rewrite Hsame2, Hadded1 in Hnotarized.
      apply app_inv_head in Hnotarized. discriminate Hnotarized.
    + rewrite Hadded2, Hadded1, <- app_assoc in Hnotarized.
      apply app_inv_head in Hnotarized. simpl in Hnotarized.
      injection Hnotarized as <- <-.
      rewrite !identity_stamped, Hdrawn1.
      intros Hsame. injection Hsame as Htag.
      apply Hunique in Htag. lia.
Qed.

End Properties.

(** * The functions seen from their caller *)

Section Behaviour.
Context `{Collaborators}.

(** ** What a function makes of the answer of the server *)

Lemma invoke_responded base operation :
  exists text, forall debug identifier document w credentials w1 response request,
    generateCredentials w = (inr credentials, w1) ->
    let options :=
      requestOptions credentials base (methodOf operation) (kindOf operation) identifier
        (if takesPayload operation then document else Absent) in
    network options w1 = Responded response request ->
    invoke (Some base) debug operation identifier document w
    = if onlyUnexpected (status response)
      then (inr (if returnsOutcome operation
                 then interpret (methodOf operation) response else JsUndefined),
            recordCall options w1)
      else let exception :=
             unexpected (Some base) operation text identifier document
               (translate (functionName operation) options (methodOf operation)
                  (AxiosError (Some response) (Some request))) in
           (inl exception,
            logged debug (exceptionToString exception) (recordCall options w1)).
Proof.
  destruct (invoke_run (Some base) operation) as [text Hrun].
  exists text.
  intros debug identifier document w credentials w1 response request
    Hcredentials options Hnetwork.
  rewrite Hrun, attempt_run, Hcredentials, sendRequest_run.
  pose proof (operation_allowed operation) as Hallowed.
  apply (allowed_iff_analyzed (functionName operation) (Some base)) in Hallowed.
  rewrite Hallowed; simpl. fold options. rewrite Hnetwork.
  destruct (onlyUnexpected (status response)); reflexivity.
Qed.

Lemma unexpected_rejected cloudURL operation text identifier document
    functionName options method response request :
  rejected (status response)
    (unexpected cloudURL operation text identifier document
       (translate functionName options method (AxiosError (Some response) request))).
Proof.
  rewrite unexpected_own by apply translate_own.
  repeat split; reflexivity.
Qed.

(** X1: certificateExists, draftExists, documentExists and typeExists turn
    the status of the answer into their result: true for a status below
    400, false for 404, and for any other status the $invalidRequest
    exception of [sendRequest] with that status, raised as it is. *)
Theorem exists_reports_status
    base debug operation identifier document w credentials w1 response request :
  methodOf operation = "HEAD" ->
  generateCredentials w = (inr credentials, w1) ->
  network (requestOptions credentials base "HEAD" (kindOf operation) identifier Absent) w1
    = Responded response request ->
  match fst (invoke (Some base) debug operation identifier document w) with
  | inr outcome =>
      outcome = JsBoolean (status response <? 400)
      /\ (status response < 400 \/ status response = 404)
  | inl exception =>
      400 <= status response /\ status response <> 404
      /\ rejected (status response) exception
  end.
Proof.
  intros Hmethod Hcredentials Hnetwork.
  destruct (invoke_responded base operation) as [text Hrun].
  assert (Htakes : takesPayload operation = false)
    by (destruct operation; try discriminate Hmethod; reflexivity).
  assert (Hreturns : returnsOutcome operation = true)
    by (destruct operation; try discriminate Hmethod; reflexivity).
  specialize (Hrun debug identifier document w credentials w1 response request
                Hcredentials).
  cbv zeta in Hrun. rewrite Htakes, Hmethod in Hrun. rewrite (Hrun Hnetwork).
  destruct (onlyUnexpected (status response)) eqn:Hstatus; cbn [fst].
  - rewrite Hreturns. unfold interpret, onlyUnexpected in *; simpl.
    split; [f_equal|]; lia.
  - apply onlyUnexpected_failure in Hstatus.
    destruct Hstatus as [Hhigh Hnot404].
    split; [assumption|]. split; [assumption|].
    apply unexpected_rejected.
Qed.

(** X2: fetchCertificate, fetchDraft, fetchDocument, fetchType and
    dequeueMessage return what axios hands over as the data of an answer
    whose status is below 400 or 404 when that value is truthy, and
    undefined otherwise, so never the empty string, zero, false or null;
    for any other status they raise the $invalidRequest exception of
    [sendRequest] with that status, as it is. *)
Theorem fetch_returns_body
    base debug operation identifier document w credentials w1 response request :
  methodOf operation = "GET" ->
  generateCredentials w = (inr credentials, w1) ->
  network (requestOptions credentials base "GET" (kindOf operation) identifier Absent) w1
    = Responded response request ->
  match fst (invoke (Some base) debug operation identifier document w) with
  | inr outcome =>
      (status response < 400 \/ status response = 404)
      /\ outcome = (if truthyValue (data response) then data response else JsUndefined)
      /\ (outcome = JsUndefined \/ truthyValue outcome = true)
  | inl exception =>
      400 <= status response /\ status response <> 404
      /\ rejected (status response) exception
  end.
Proof.
  intros Hmethod Hcredentials Hnetwork.
  destruct (invoke_responded base operation) as [text Hrun].
  assert (Htakes : takesPayload operation = false)
    by (destruct operation; try discriminate Hmethod; reflexivity).
  assert (Hreturns : returnsOutcome operation = true)
    by (destruct operation; try discriminate Hmethod; reflexivity).
  specialize (Hrun debug identifier document w credentials w1 response request
                Hcredentials).
  cbv zeta in Hrun. rewrite Htakes, Hmethod in Hrun. rewrite (Hrun Hnetwork).
  destruct (onlyUnexpected (status response)) eqn:Hstatus; cbn [fst].
  - rewrite Hreturns. unfold interpret; simpl.
    split; [apply onlyUnexpected_spec; assumption|].
    split; [reflexivity|].
    destruct (truthyValue (data response)) eqn:Hdata; [right; exact Hdata | left; reflexivity].
  - apply onlyUnexpected_failure in Hstatus.
    destruct Hstatus as [Hhigh Hnot404].
    split; [assumption|]. split; [assumption|].
    apply unexpected_rejected.
Qed.

(** X3: createCertificate, saveDraft, deleteDraft, createDocument,
    createType and queueMessage return undefined for every answer whose
    status is below 400 or 404, whatever its body: a 404 answer to a create,
    a save, a delete or a queue is not reported to the caller.  For any
    other status they raise the $invalidRequest exception of [sendRequest]
    with that status, as it is. *)
Theorem silent_functions_hide_not_found
    base debug operation identifier document w credentials w1 response request :
  returnsOutcome operation = false ->
  generateCredentials w = (inr credentials, w1) ->
  network (requestOptions credentials base (methodOf operation) (kindOf operation)
             identifier (if takesPayload operation then document else Absent)) w1
    = Responded response request ->
  match fst (invoke (Some base) debug operation identifier document w) with
  | inr outcome =>
      outcome = JsUndefined /\ (status response < 400 \/ status response = 404)
  | inl exception =>
      400 <= status response /\ status response <> 404
      /\ rejected (status response) exception
  end.
Proof.
  intros Hreturns Hcredentials Hnetwork.
  destruct (invoke_responded base operation) as [text Hrun].
  specialize (Hrun debug identifier document w credentials w1 response request
                Hcredentials).
  cbv zeta in Hrun. rewrite (Hrun Hnetwork).
  destruct (onlyUnexpected (status response)) eqn:Hstatus; cbn [fst].
  - rewrite Hreturns. split; [reflexivity|].
    apply onlyUnexpected_spec; assumption.
  - apply onlyUnexpected_failure in Hstatus.
    destruct Hstatus as [Hhigh Hnot404].
    split; [assumption|]. split; [assumption|].
    apply unexpected_rejected.
Qed.

(** X4: what a function returns depends on the function alone: the exists
    functions return a boolean, the fetch functions and dequeueMessage
    return undefined or a truthy value (never the empty string, zero, false
    or null), and the other functions return undefined. *)
Theorem outcome_shape cloudURL debug operation identifier document w outcome :
  fst (invoke cloudURL debug operation identifier document w) = inr outcome ->
  match operation with
  | CertificateExists | DraftExists | DocumentExists | TypeExists =>
      exists found, outcome = JsBoolean found
  | FetchCertificate | FetchDraft | FetchDocument | FetchType | DequeueMessage =>
      outcome = JsUndefined \/ truthyValue outcome = true
  | _ => outcome = JsUndefined
  end.
Proof.
  intros Hdone.
  destruct (invoke_run cloudURL operation) as [text Hrun].
  rewrite Hrun, attempt_run in Hdone.
  destruct (generateCredentials w) as [[cause | credentials] w1];
    [discriminate Hdone|].
  rewrite sendRequest_run in Hdone.
  destruct (analyzeParameters _ _ _ _); [discriminate Hdone|].
  destruct cloudURL as [base|]; [|discriminate Hdone].
  cbv zeta in Hdone.
  destruct (network _ w1) as [response request | request |];
    [|discriminate Hdone..].
  destruct (onlyUnexpected _); [|discriminate Hdone].
  cbn [fst] in Hdone. injection Hdone as <-.
  assert (Hbody : interpret "GET" response = JsUndefined
                  \/ truthyValue (interpret "GET" response) = true).
  { unfold interpret; simpl.
    destruct (truthyValue (data response)) eqn:Hdata;
      [right; exact Hdata | left; reflexivity]. }
  destruct operation; simpl; solve [ eexists; reflexivity | exact Hbody | reflexivity ].
Qed.

(** ** When no request can be made *)




(** ** The private function [sendRequest] *)

Ltac each_kind type :=
  destruct (String.eqb_spec type "certificate") as [-> | ?];
    [ | destruct (String.eqb_spec type "draft") as [-> | ?];
      [ | destruct (String.eqb_spec type "document") as [-> | ?];
        [ | destruct (String.eqb_spec type "type") as [-> | ?];
          [ | destruct (String.eqb_spec type "queue") as [-> | ?] ] ] ] ].

Ltac each_method method :=
  destruct (String.eqb method "HEAD"), (String.eqb method "GET"),
    (String.eqb method "POST"), (String.eqb method "PUT"), (String.eqb method "DELETE").

Lemma analyzeParameters_exception functionName cloudURL method type exception :
  analyzeParameters functionName cloudURL method type = Some exception ->
  causeOf exception = None
  /\ attribute "$module" exception = Some (Str "$CloudRepository")
  /\ attribute "$function" exception = Some (Str functionName)
  /\ attribute "$exception" exception = Some (Str "$invalidParameter").
Proof.
  unfold analyzeParameters, invalidCombination.
  each_kind type; simpl; each_method method; simpl;
    intros Hthrown; try discriminate Hthrown;
    injection Hthrown as <-; repeat split; reflexivity.
Qed.

Lemma translate_exception functionName options method cause :
  causeOf (translate functionName options method cause) = None
  /\ attribute "$module" (translate functionName options method cause)
     = Some (Str "$CloudRepository")
  /\ attribute "$function" (translate functionName options method cause)
     = Some (Str functionName)
  /\ (attribute "$exception" (translate functionName options method cause)
      = Some (Str "$invalidRequest")
      \/ attribute "$exception" (translate functionName options method cause)
         = Some (Str "$serverDown")
      \/ attribute "$exception" (translate functionName options method cause)
         = Some (Str "$malformedRequest")).
Proof.
  destruct cause as [attributes inner | [response|] [request|] | | message];
    repeat split; try reflexivity;
    solve [ left; reflexivity | right; left; reflexivity | right; right; reflexivity ].
Qed.

(** X8: whatever it is given, [sendRequest] fails in one of three ways
    only: with a TypeError when there is no URL (and nothing was sent),
    with an $invalidParameter exception (and nothing was sent), or, after
    one request was handed to axios, with an $invalidRequest, $serverDown or
    $malformedRequest exception.  Its exceptions name the module and the
    calling function and have no cause; the error of axios itself never
    gets out. *)
Theorem sendRequest_failures
    credentials functionName cloudURL method type identifier document w thrown w' :
  sendRequest credentials functionName cloudURL method type identifier document w
  = (inl thrown, w') ->
  (thrown = TypeError /\ cloudURL = None /\ w' = w)
  \/ (causeOf thrown = None
      /\ attribute "$module" thrown = Some (Str "$CloudRepository")
      /\ attribute "$function" thrown = Some (Str functionName)
      /\ ((attribute "$exception" thrown = Some (Str "$invalidParameter") /\ w' = w)
          \/ ((attribute "$exception" thrown = Some (Str "$invalidRequest")
               \/ attribute "$exception" thrown = Some (Str "$serverDown")
               \/ attribute "$exception" thrown = Some (Str "$malformedRequest"))
              /\ exists options, w' = recordCall options w))).
Proof.
  rewrite sendRequest_run.
  destruct (analyzeParameters functionName cloudURL method type) as [exception|]
    eqn:Hanalyzed.
  - intros Hfailed. injection Hfailed as <- <-.
    apply analyzeParameters_exception in Hanalyzed.
    destruct Hanalyzed as (Hcause & Hmodule & Hfunction & Hkind).
    right. repeat split; try assumption. left. split; [assumption | reflexivity].
  - destruct cloudURL as [base|].
    + cbv zeta.
      set (options := requestOptions credentials base method type identifier document).
      assert (Htranslated : forall cause,
                 (@inl Thrown Value (translate functionName options method cause),
                  recordCall options w)
                 = (inl thrown, w') ->
                 causeOf thrown = None
                 /\ attribute "$module" thrown = Some (Str "$CloudRepository")
                 /\ attribute "$function" thrown = Some (Str functionName)
                 /\ ((attribute "$exception" thrown = Some (Str "$invalidParameter")
                      /\ w' = w)
                     \/ ((attribute "$exception" thrown = Some (Str "$invalidRequest")
                          \/ attribute "$exception" thrown = Some (Str "$serverDown")
                          \/ attribute "$exception" thrown = Some (Str "$malformedRequest"))
                         /\ exists options, w' = recordCall options w))).
      { intros cause Hfailed. injection Hfailed as <- <-.
        destruct (translate_exception functionName options method cause)
          as (Hcause & Hmodule & Hfunction & Hkind).
        repeat split; try assumption.
        right. split; [assumption|]. exists options; reflexivity. }
      destruct (network options w) as [response request | request |].
      * destruct (onlyUnexpected _); [discriminate|].
        intros Hfailed. right. exact (Htranslated _ Hfailed).
      * intros Hfailed. right. exact (Htranslated _ Hfailed).
      * intros Hfailed. right. exact (Htranslated _ Hfailed).
    + intros Hfailed. injection Hfailed as <- <-.
      left. repeat split; reflexivity.
Qed.

(** X9: [sendRequest] returns a value exactly when the kind and the method
    are an allowed pair, there is a URL, and the network answers the request
    with a status below 400 or equal to 404. *)
Theorem sendRequest_succeeds_iff
    credentials functionName cloudURL method type identifier document w :
  (exists outcome w',
     sendRequest credentials functionName cloudURL method type identifier document w
     = (inr outcome, w'))
  <-> allowed type method = true
      /\ exists base response request,
          cloudURL = Some base
          /\ network (requestOptions credentials base method type identifier document) w
             = Responded response request
          /\ (status response < 400 \/ status response = 404).
Proof.
  rewrite sendRequest_run.
  rewrite (allowed_iff_analyzed functionName cloudURL method type).
  split.
  - intros (outcome & w' & Hdone).
    destruct (analyzeParameters _ _ _ _); [discriminate Hdone|].
    split; [reflexivity|].
    destruct cloudURL as [base|]; [|discriminate Hdone].
    cbv zeta in Hdone.
    destruct (network _ w) as [response request | request |] eqn:Hnetwork;
      [|discriminate Hdone..].
    destruct (onlyUnexpected _) eqn:Hstatus; [|discriminate Hdone].
    exists base, response, request.
    split; [reflexivity|]. split; [exact Hnetwork|].
    apply onlyUnexpected_spec; assumption.
  - intros (Hanalyzed & base & response & request & -> & Hnetwork & Hstatus).
    rewrite Hanalyzed. cbv zeta. rewrite Hnetwork.
    apply onlyUnexpected_spec in Hstatus. rewrite Hstatus.
    do 2 eexists; reflexivity.
Qed.

(** ** The request *)

Lemma append_cancel (prefix left right : string) :
  prefix ++ left = prefix ++ right -> left = right.
Proof.
  induction prefix as [|c prefix IH]; simpl; [trivial|].
  intros Hsame. injection Hsame as Hsame. exact (IH Hsame).
Qed.

(** X10: two requests of a repository go to the same URL only when they
    are for the same kind and the same identifier: among the five kinds the
    URL tells the kind and the identifier. *)
Theorem request_url_injective
    credentials1 credentials2 base method1 method2 type1 type2
    identifier1 identifier2 document1 document2 :
  knownKind type1 = true ->
  knownKind type2 = true ->
  url (requestOptions credentials1 base method1 type1 identifier1 document1)
  = url (requestOptions credentials2 base method2 type2 identifier2 document2) ->
  type1 = type2 /\ identifier1 = identifier2.
Proof.
  rewrite !requestOptions_url.
  intros Hknown1 Hknown2 Hsame.
  apply append_cancel in Hsame.
  revert Hknown1 Hknown2. unfold knownKind; simpl.
  each_kind type1; simpl; intros Hknown1; try discriminate Hknown1;
    each_kind type2; simpl; intros Hknown2; try discriminate Hknown2;
    try discriminate Hsame;
    (split; [reflexivity|]); do 2 apply append_cancel in Hsame; exact Hsame.
Qed.

(** X11: the headers of a request are the Nebula-Credentials header and,
    exactly when a body is attached, Content-Type and Content-Length; there
    is never another header.  The functions of one parameter attach no
    body; the functions of two attach their document when it is truthy and
    its string is not empty. *)
Theorem facade_request_headers
    base debug operation identifier document w credentials w1 :
  generateCredentials w = (inr credentials, w1) ->
  exists options,
    calls (snd (invoke (Some base) debug operation identifier document w))
    = (calls w ++ [options])%list
    /\ body options
       = (if takesPayload operation && present document
          then Some (payloadString document) else None)
    /\ dom (headers options)
       = (if takesPayload operation && present document
          then {[ "Nebula-Credentials"; "Content-Type"; "Content-Length" ]}
          else {[ "Nebula-Credentials" ]} : gset string).
Proof.
  intros Hcredentials.
  rewrite invoke_calls, Hcredentials.
  eexists; split; [reflexivity|].
  rewrite requestOptions_present.
  destruct (takesPayload operation); simpl; [destruct (present document)|];
    (split; [reflexivity|]);
    rewrite ?dom_insert_L, dom_singleton_L; set_solver.
Qed.

(** ** Credentials *)

(** X12: the document of a credential does not depend on the identity of
    the citation it is made of: two citations of the same content whose
    parameters differ in $tag, $version, $permissions and $previous only
    give, for the same draw, documents to notarize that have the same
    content and the same value for every parameter. *)
Theorem credential_ignores_citation_identity w1 w2 citation1 citation2 params1 params2 :
  getCitation w1 = inr citation1 -> parameters citation1 = Some params1 ->
  getCitation w2 = inr citation2 -> parameters citation2 = Some params2 ->
  drawn w1 = drawn w2 ->
  content citation1 = content citation2 ->
  (forall key, key <> "$tag" -> key <> "$version" -> key <> "$permissions" ->
     key <> "$previous" -> params1 !! key = params2 !! key) ->
  exists document1 document2,
    notarized (snd (generateCredentials w1)) = (notarized w1 ++ [document1])%list
    /\ notarized (snd (generateCredentials w2)) = (notarized w2 ++ [document2])%list
    /\ content document1 = content document2
    /\ forall key, parameter key document1 = parameter key document2.
Proof.
  intros Hcitation1 Hparams1 Hcitation2 Hparams2 Hdrawn Hcontent Hagree.
  rewrite !generateCredentials_run, Hcitation1, Hparams1, Hcitation2, Hparams2.
  exists (stamped citation1 params1 (tag (drawn w1))),
         (stamped citation2 params2 (tag (drawn w2))).
  split; [reflexivity|]. split; [reflexivity|]. split; [exact Hcontent|].
  intros key. unfold parameter, stamped; simpl. rewrite Hdrawn.
  destruct (decide (key = "$previous")) as [-> | Hprevious];
    [rewrite !lookup_insert_eq; reflexivity
    | rewrite !(lookup_insert_ne _ "$previous") by congruence].
  destruct (decide (key = "$permissions")) as [-> | Hpermissions];
    [rewrite !lookup_insert_eq; reflexivity
    | rewrite !(lookup_insert_ne _ "$permissions") by congruence].
  destruct (decide (key = "$version")) as [-> | Hversion];
    [rewrite !lookup_insert_eq; reflexivity
    | rewrite !(lookup_insert_ne _ "$version") by congruence].
  destruct (decide (key = "$tag")) as [-> | Htag];
    [rewrite !lookup_insert_eq; reflexivity
    | rewrite !(lookup_insert_ne _ "$tag") by congruence].
  apply Hagree; assumption.
Qed.

(** ** The console *)

Lemma sendRequest_console
    credentials functionName cloudURL method type identifier document w :
  console (snd (sendRequest credentials functionName cloudURL method type identifier
                  document w)) = console w.
Proof.
  rewrite sendRequest_run.
  destruct (analyzeParameters _ _ _ _); [reflexivity|].
  destruct cloudURL as [base|]; [|reflexivity]. cbv zeta.
  destruct (network _ w) as [response request | request |]; try reflexivity.
  destruct (onlyUnexpected _); reflexivity.
Qed.

(** X13: a function writes to the error console only when it fails and
    debug is on, and then one line, the string of the exception it raises;
    with debug off, or when it succeeds, the console is left as it was. *)
Theorem console_written_on_debug_failure
    cloudURL debug operation identifier document w :
  console (snd (invoke cloudURL debug operation identifier document w))
  = (console w ++
     match fst (invoke cloudURL debug operation identifier document w) with
     | inl exception => if debug then [exceptionToString exception] else []
     | inr _ => []
     end)%list.
Proof.
  destruct (invoke_run cloudURL operation) as [text Hrun].
  rewrite Hrun, attempt_run.
  destruct (generateCredentials_quiet w) as [_ Hconsole].
  destruct (generateCredentials w) as [[cause | credentials] w1]; cbn [fst snd] in *.
  - rewrite <- Hconsole. destruct debug; simpl; [reflexivity | apply eq_sym, app_nil_r].
  - pose proof (sendRequest_console credentials (functionName operation) cloudURL
                  (methodOf operation) (kindOf operation) identifier
                  (if takesPayload operation then document else Absent) w1) as Hsame.
    rewrite <- Hconsole, <- Hsame.
    destruct (sendRequest _ _ _ _ _ _ _ w1) as [[cause | outcome] w2]; cbn [fst snd].
    + destruct debug; simpl; [reflexivity | apply eq_sym, app_nil_r].
    + apply eq_sym, app_nil_r.
Qed.

(** ** A caller that makes one call after the other *)

Lemma invoke_step cloudURL debug operation identifier document w :
  (notarized (snd (invoke cloudURL debug operation identifier document w)) = notarized w
   /\ drawn (snd (invoke cloudURL debug operation identifier document w)) = drawn w
   /\ calls (snd (invoke cloudURL debug operation identifier document w)) = calls w)
  \/ (exists document' sent,
        identity document' = identityOf (drawn w)
        /\ notarized (snd (invoke cloudURL debug operation identifier document w))
           = (notarized w ++ [document'])%list
        /\ drawn (snd (invoke cloudURL debug operation identifier document w))
           = S (drawn w)
        /\ calls (snd (invoke cloudURL debug operation identifier document w))
           = (calls w ++ sent)%list
        /\ (length sent <= 1)%nat).
Proof.
  destruct (invoke_keeps cloudURL debug operation identifier document w)
    as [Hdrawn Hnotarized].
  rewrite Hdrawn, Hnotarized, invoke_calls, generateCredentials_run.
  destruct (getCitation w) as [cause | citation];
    [left; repeat split; try reflexivity; apply app_nil_r|].
  destruct (parameters citation) as [params|];
    [|left; repeat split; try reflexivity; apply app_nil_r].
  right. cbv zeta.
  exists (stamped citation params (tag (drawn w))).
  destruct (notarizeDocument _ _) as [cause | credentials];
    [|destruct cloudURL as [base|]];
    eexists; (split; [apply identity_stamped|]);
    (split; [reflexivity|]); (split; [reflexivity|]);
    (split; [reflexivity|]); simpl; lia.
Qed.

Lemma session_step cloudURL debug script :
  forall w,
  exists minted sent,
    notarized (session cloudURL debug script w) = (notarized w ++ minted)%list
    /\ identity <$> minted = identityOf <$> seq (drawn w) (length minted)
    /\ drawn (session cloudURL debug script w) = (drawn w + length minted)%nat
    /\ calls (session cloudURL debug script w) = (calls w ++ sent)%list
    /\ (length sent <= length minted)%nat
    /\ (length minted <= length script)%nat.
Proof.
  induction script as [|call rest IH]; intros w.
  - exists [], []. simpl. rewrite !app_nil_r.
    repeat split; try reflexivity; lia.
  - simpl.
    destruct (invoke_step cloudURL debug (callOperation call) (callIdentifier call)
                (callDocument call) w)
      as [(Hnotarized & Hdrawn & Hcalls)
         | (document' & sent1 & Hidentity & Hnotarized & Hdrawn & Hcalls & Hone)];
      destruct (IH (snd (invoke cloudURL debug (callOperation call) (callIdentifier call)
                           (callDocument call) w)))
        as (minted & sent & Hminted & Hidentities & Hcount & Hsent & Hfewer & Hscript);
      rewrite Hnotarized in Hminted; rewrite Hdrawn in Hidentities, Hcount;
      rewrite Hcalls in Hsent.
    + exists minted, sent. repeat split; try assumption. lia.
    + exists (document' :: minted), (sent1 ++ sent)%list.
      split; [rewrite <- app_assoc in Hminted; exact Hminted|].
      split; [cbn [length seq]; rewrite !fmap_cons, Hidentity, Hidentities; reflexivity|].
      split; [cbn [length]; lia|].
      split; [rewrite app_assoc; exact Hsent|].
      rewrite length_app; cbn [length]; lia.
Qed.

(** X14: over any number of calls made one after the other, the number of
    tags drawn is the number of documents handed to the notary, at most one
    per call, and never fewer than the number of requests handed to axios:
    no request goes out without a credential generated for it. *)
Theorem session_counts cloudURL debug script w :
  exists minted sent,
    notarized (session cloudURL debug script w) = (notarized w ++ minted)%list
    /\ calls (session cloudURL debug script w) = (calls w ++ sent)%list
    /\ drawn (session cloudURL debug script w) = (drawn w + length minted)%nat
    /\ (length sent <= length minted)%nat
    /\ (length minted <= length script)%nat.
Proof.
  destruct (session_step cloudURL debug script w)
    as (minted & sent & Hminted & _ & Hdrawn & Hsent & Hfewer & Hscript).
  exists minted, sent. repeat split; assumption.
Qed.

(** X15: over any number of calls made one after the other, the documents
    handed to the notary carry the tags in the order they were drawn, all
    with the version of the framework; tags being unique, no two of these
    documents have the same tag and version. *)
Theorem session_identities_distinct cloudURL debug script w :
  (forall i j, tag i = tag j -> i = j) ->
  exists minted,
    notarized (session cloudURL debug script w) = (notarized w ++ minted)%list
    /\ identity <$> minted
       = (fun i => (Some (Tag (tag i)), Some (Version version)))
         <$> seq (drawn w) (length minted)
    /\ NoDup (identity <$> minted).
Proof.
  intros Hunique.
  destruct (session_step cloudURL debug script w)
    as (minted & sent & Hminted & Hidentities & _).
  exists minted. split; [assumption|]. split; [exact Hidentities|].
  rewrite Hidentities.
  apply NoDup_fmap_2; [|apply NoDup_seq].
  intros i j Hsame. unfold identityOf in Hsame.
  injection Hsame as Hsame. exact (Hunique i j Hsame).
Qed.

End Behaviour.

(** * Concrete runs *)

Example documentExists_found :
  fst (@documentExists (Scenario.collaborators (Scenario.answer 200 "OK" EmptyString))
         Scenario.base false "D1" Scenario.start)
  = inr (JsBoolean true).
Proof. reflexivity. Qed.

Example documentExists_missing :
  fst (@documentExists (Scenario.collaborators (Scenario.answer 404 "Not Found" EmptyString))
         Scenario.base false "D1" Scenario.start)
  = inr (JsBoolean false).
Proof. reflexivity. Qed.

Example fetchDocument_found :
  fst (@fetchDocument (Scenario.collaborators (Scenario.answer 200 "OK" "[$foo: 1]"))
         Scenario.base false "D1" Scenario.start)
  = inr (JsString "[$foo: 1]").
Proof. reflexivity. Qed.

Example fetchDraft_missing :
  fst (@fetchDraft (Scenario.collaborators (Scenario.answer 404 "Not Found" EmptyString))
         Scenario.base false "T1" Scenario.start)
  = inr JsUndefined.
Proof. reflexivity. Qed.

Example createDocument_rejected :
  kinds (fst (@createDocument (Scenario.collaborators (Scenario.answer 409 "Conflict" EmptyString))
                Scenario.base false "D1" (Source "[$foo: 1]") Scenario.start))
  = (Some (Str "$invalidRequest"), None).
Proof. reflexivity. Qed.

Example dequeueMessage_unreachable :
  kinds (fst (@dequeueMessage (Scenario.collaborators (Silent Scenario.sent))
                Scenario.base false "Q1" Scenario.start))
  = (Some (Str "$serverDown"), None).
Proof. reflexivity. Qed.

Example saveDraft_logged :
  console (snd (@saveDraft (Scenario.collaborators Unsent)
                  Scenario.base true "T1" (Source "[$x: 1]") Scenario.start))
  = ["$malformedRequest"].
Proof. reflexivity. Qed.

(** C3, as stated, fails for an unknown kind: the exception thrown for the
    kind folder with method GET carries the kind but nothing holds the
    method. *)
Lemma unknown_kind_exception_lacks_method :
  allowed "folder" "GET" = false
  /\ exists exception,
      @sendRequest (Scenario.collaborators Unsent) Scenario.citation "$fetchFolder"
        Scenario.base "GET" "folder" "F1" Absent Scenario.start
      = (inl exception, Scenario.start)
      /\ attribute "$exception" exception = Some (Str "$invalidParameter")
      /\ carries (Text "folder") exception
      /\ ~ carries (Text "GET") exception.
Proof.
  split; [reflexivity|].
  eexists; split; [reflexivity|].
  split; [reflexivity|].
  split; [exists "$parameter"; reflexivity|].
  intros [key Hkey]; simpl in Hkey.
  repeat (destruct (String.eqb key _); [simpl in Hkey; discriminate Hkey|]).
  simpl in Hkey; discriminate Hkey.
Qed.

(** C2: the claim holds and the code misses it.  fetchDocument is answered
    404 with a body; the claim (and the function's own documentation) has it
    yield nothing, the code returns that body: the branch of the GET never
    looks at the status, which the branch of HEAD and DELETE does. *)
Lemma not_found_body_is_returned :
  fst (@fetchDocument
         (Scenario.collaborators (Scenario.answer 404 "Not Found" "no such document"))
         Scenario.base false "D1" Scenario.start)
  = inr (JsString "no such document")
  /\ JsString "no such document" <> JsUndefined
  /\ JsString "no such document" <> JsBoolean false
  /\ fst (@documentExists
            (Scenario.collaborators (Scenario.answer 404 "Not Found" "no such document"))
            Scenario.base false "D1" Scenario.start)
     = inr (JsBoolean false).
Proof.
  split; [reflexivity|]. split; [discriminate|]. split; [discriminate | reflexivity].
Qed.

Lemma transport_failure_classified_witness :
  exists exception,
    @sendRequest (Scenario.collaborators (Silent Scenario.sent)) Scenario.citation
      "$saveDraft" Scenario.base "PUT" "draft" "T1" (Source "[$x: 1]") Scenario.start
    = (inl exception,
       recordCall
         (@requestOptions (Scenario.collaborators (Silent Scenario.sent)) Scenario.citation
            "https://bali-nebula.net/repository/" "PUT" "draft" "T1" (Source "[$x: 1]"))
         Scenario.start)
    /\ causeOf exception = None
    /\ attribute "$url" exception
       = Some (Reference ("https://bali-nebula.net/repository/" ++ "draft" ++ "/" ++ "T1"))
    /\ attribute "$method" exception = Some (Text "PUT")
    /\ attribute "$exception" exception = Some (Str "$serverDown")
    /\ attribute "$status" exception = Some (Num 0)
    /\ attribute "$details" exception = Some (Text EmptyString).
Proof.
  exact (@transport_failure_classified (Scenario.collaborators (Silent Scenario.sent))
           Scenario.citation "$saveDraft" "https://bali-nebula.net/repository/" "PUT" "draft"
           "T1" (Source "[$x: 1]") Scenario.start (AxiosError None (Some Scenario.sent)) _
           eq_refl eq_refl).
Defined.

(** C4, as stated, fails: the exception raised for a rejected request (here
    a 500) has no cause, so the low-level error is not attached to it. *)
Lemma rejected_request_has_no_cause :
  exists lowLevel exception w',
    @axios (Scenario.collaborators (Scenario.answer 500 "Internal Server Error" EmptyString))
      (@requestOptions
         (Scenario.collaborators (Scenario.answer 500 "Internal Server Error" EmptyString))
         Scenario.citation "https://bali-nebula.net/repository/" "GET" "document" "D1" Absent)
      Scenario.start
    = (inl lowLevel, w')
    /\ @sendRequest
         (Scenario.collaborators (Scenario.answer 500 "Internal Server Error" EmptyString))
         Scenario.citation "$fetchDocument" Scenario.base "GET" "document" "D1" Absent
         Scenario.start
       = (inl exception, w')
    /\ attribute "$exception" exception = Some (Str "$invalidRequest")
    /\ causeOf exception <> Some lowLevel.
Proof.
  do 3 eexists.
  split; [reflexivity|].
  split; [rewrite sendRequest_run; reflexivity|].
  split; [reflexivity|].
  discriminate.
Qed.

Lemma dispatched_request_witness :
  exists options,
    calls (snd (@sendRequest (Scenario.collaborators (Scenario.answer 200 "OK" EmptyString))
                  Scenario.citation "$createDocument" Scenario.base "POST" "document" "D1"
                  (Source "[$foo: 1]") Scenario.start))
    = (calls Scenario.start ++ [options])%list
    /\ url options = "https://bali-nebula.net/repository/" ++ "document" ++ "/" ++ "D1"
    /\ optionsMethod options = "POST"
    /\ headers options !! "Nebula-Credentials"
       = Some (HString (quote ++ "[$protocol: v1]" ++ quote))
    /\ body options = Some "[$foo: 1]"
    /\ headers options !! "Content-Type" = Some (HString "application/bali")
    /\ headers options !! "Content-Length" = Some (HNumber 9).
Proof.
  exact (@dispatched_request (Scenario.collaborators (Scenario.answer 200 "OK" EmptyString))
           Scenario.citation "$createDocument" "https://bali-nebula.net/repository/" "POST"
           "document" "D1" (Source "[$foo: 1]") Scenario.start eq_refl).
Defined.

Lemma empty_payload_sends_no_body_witness :
  exists options,
    calls (snd (@invoke (Scenario.collaborators (Scenario.answer 200 "OK" EmptyString))
                  Scenario.base false QueueMessage "Q1" (Source EmptyString) Scenario.start))
    = (calls Scenario.start ++ [options])%list
    /\ calls (snd (@invoke (Scenario.collaborators (Scenario.answer 200 "OK" EmptyString))
                     Scenario.base false QueueMessage "Q1" Absent Scenario.start))
       = (calls Scenario.start ++ [options])%list
    /\ body options = None
    /\ headers options !! "Content-Type" = None
    /\ headers options !! "Content-Length" = None.
Proof.
  exact (@empty_payload_sends_no_body
           (Scenario.collaborators (Scenario.answer 200 "OK" EmptyString))
           "https://bali-nebula.net/repository/" false QueueMessage "Q1" (Source EmptyString)
           Scenario.start _ _ eq_refl eq_refl eq_refl).
Defined.

Lemma scenario_tags_unique reply i j :
  @tag (Scenario.collaborators reply) i = @tag (Scenario.collaborators reply) j -> i = j.
Proof.
  simpl. intros Hsame. injection Hsame as Hsame.
  exact (pretty_nat_inj _ _ Hsame).
Qed.

Lemma credentials_minted_per_request_witness :
  exists first second,
    notarized (snd (@generateCredentials (Scenario.collaborators Unsent)
                      (snd (@generateCredentials (Scenario.collaborators Unsent)
                              Scenario.start))))
    = [first; second]
    /\ identity first = (Some (Tag "#0"), Some (Version "v1"))
    /\ identity second = (Some (Tag "#1"), Some (Version "v1"))
    /\ identity first <> identity second.
Proof.
  do 2 eexists. split; [reflexivity|].
  split; [reflexivity|]. split; [reflexivity|].
  exact (proj2 (proj2 (@credentials_minted_per_request (Scenario.collaborators Unsent)
                         Scenario.base false (scenario_tags_unique Unsent)))
           Scenario.start _ _ _ _ eq_refl eq_refl eq_refl).
Defined.


(** * Concrete runs of the functions seen from their caller *)

Lemma exists_reports_status_witness :
  match fst (@invoke (Scenario.collaborators (Scenario.answer 404 "Not Found" EmptyString))
               Scenario.base false DocumentExists "D1" Absent Scenario.start) with
  | inr outcome => outcome = JsBoolean (404 <? 400) /\ (404 < 400 \/ 404 = 404)
  | inl exception => 400 <= 404 /\ 404 <> 404 /\ rejected 404 exception
  end.
Proof.
  exact (@exists_reports_status
           (Scenario.collaborators (Scenario.answer 404 "Not Found" EmptyString))
           "https://bali-nebula.net/repository/" false DocumentExists "D1" Absent
           Scenario.start _ _
           {| status := 404; statusText := "Not Found"; data := JsString EmptyString |}
           Scenario.sent
           eq_refl eq_refl eq_refl).
Defined.

Lemma fetch_returns_body_witness :
  match fst (@invoke (Scenario.collaborators
                        (Responded {| status := 200; statusText := "OK";
                                      data := JsNumber (Finite 42 1) |} Scenario.sent))
               Scenario.base false FetchType "Y1" Absent Scenario.start) with
  | inr outcome =>
      (200 < 400 \/ 200 = 404)
      /\ outcome = JsNumber (Finite 42 1)
      /\ (outcome = JsUndefined \/ truthyValue outcome = true)
  | inl exception => 400 <= 200 /\ 200 <> 404 /\ rejected 200 exception
  end.
Proof.
  exact (@fetch_returns_body
           (Scenario.collaborators
              (Responded {| status := 200; statusText := "OK";
                            data := JsNumber (Finite 42 1) |} Scenario.sent))
           "https://bali-nebula.net/repository/" false FetchType "Y1" Absent
           Scenario.start _ _
           {| status := 200; statusText := "OK"; data := JsNumber (Finite 42 1) |}
           Scenario.sent eq_refl eq_refl eq_refl).
Defined.

Lemma silent_functions_hide_not_found_witness :
  match fst (@invoke (Scenario.collaborators (Scenario.answer 404 "Not Found" EmptyString))
               Scenario.base false CreateDocument "D1" (Source "[$foo: 1]")
               Scenario.start) with
  | inr outcome => outcome = JsUndefined /\ (404 < 400 \/ 404 = 404)
  | inl exception => 400 <= 404 /\ 404 <> 404 /\ rejected 404 exception
  end.
Proof.
  exact (@silent_functions_hide_not_found
           (Scenario.collaborators (Scenario.answer 404 "Not Found" EmptyString))
           "https://bali-nebula.net/repository/" false CreateDocument "D1"
           (Source "[$foo: 1]") Scenario.start _ _
           {| status := 404; statusText := "Not Found"; data := JsString EmptyString |}
           Scenario.sent
           eq_refl eq_refl eq_refl).
Defined.

Lemma outcome_shape_witness :
  JsNumber (Finite 42 1) = JsUndefined \/ truthyValue (JsNumber (Finite 42 1)) = true.
Proof.
  exact (@outcome_shape
           (Scenario.collaborators
              (Responded {| status := 200; statusText := "OK";
                            data := JsNumber (Finite 42 1) |} Scenario.sent))
           Scenario.base false FetchType "Y1" Absent Scenario.start
           (JsNumber (Finite 42 1)) eq_refl).
Defined.



Lemma sendRequest_failures_witness :
  exists thrown w',
    @sendRequest (Scenario.collaborators (Silent Scenario.sent)) Scenario.citation
      "$fetchType" Scenario.base "GET" "type" "Y1" Absent Scenario.start
    = (inl thrown, w')
    /\ attribute "$exception" thrown = Some (Str "$serverDown")
    /\ ((thrown = TypeError /\ Scenario.base = None /\ w' = Scenario.start)
        \/ (causeOf thrown = None
            /\ attribute "$module" thrown = Some (Str "$CloudRepository")
            /\ attribute "$function" thrown = Some (Str "$fetchType")
            /\ ((attribute "$exception" thrown = Some (Str "$invalidParameter")
                 /\ w' = Scenario.start)
                \/ ((attribute "$exception" thrown = Some (Str "$invalidRequest")
                     \/ attribute "$exception" thrown = Some (Str "$serverDown")
                     \/ attribute "$exception" thrown = Some (Str "$malformedRequest"))
                    /\ exists options, w' = recordCall options Scenario.start)))).
Proof.
  do 2 eexists.
  split; [rewrite sendRequest_run; reflexivity|].
  split; [reflexivity|].
  apply (@sendRequest_failures (Scenario.collaborators (Silent Scenario.sent))
           Scenario.citation "$fetchType" Scenario.base "GET" "type" "Y1" Absent
           Scenario.start).
  rewrite sendRequest_run; reflexivity.
Defined.

Lemma request_url_injective_witness :
  "draft" = "draft" /\ "T1" = "T1".
Proof.
  exact (@request_url_injective (Scenario.collaborators Unsent)
           Scenario.citation Outage.renewed "https://bali-nebula.net/repository/"
           "GET" "DELETE" "draft" "draft" "T1" "T1" Absent (Source "[$x: 1]")
           eq_refl eq_refl eq_refl).
Defined.

Lemma facade_request_headers_witness :
  exists options,
    calls (snd (@invoke (Scenario.collaborators (Scenario.answer 200 "OK" EmptyString))
                  Scenario.base false SaveDraft "T1" (Source "[$x: 1]") Scenario.start))
    = (calls Scenario.start ++ [options])%list
    /\ body options = Some "[$x: 1]"
    /\ dom (headers options)
       = ({[ "Nebula-Credentials"; "Content-Type"; "Content-Length" ]} : gset string).
Proof.
  exact (@facade_request_headers
           (Scenario.collaborators (Scenario.answer 200 "OK" EmptyString))
           "https://bali-nebula.net/repository/" false SaveDraft "T1" (Source "[$x: 1]")
           Scenario.start _ _ eq_refl).
Defined.

Lemma outage_lookup_agrees key :
  key <> "$tag" -> key <> "$version" -> key <> "$permissions" -> key <> "$previous" ->
  ({[ "$tag" := Tag "#ACCOUNT"; "$version" := Version "v3";
      "$permissions" := Str "$Public"; "$previous" := Text "older";
      "$type" := Str "$Citation" ]} : gmap string Component) !! key
  = ({[ "$tag" := Tag "#RENEWED"; "$version" := Version "v4";
        "$permissions" := Str "$Public"; "$previous" := Text "v3";
        "$type" := Str "$Citation" ]} : gmap string Component) !! key.
Proof.
  intros Htag Hversion Hpermissions Hprevious.
  rewrite !(lookup_insert_ne _ "$tag") by congruence.
  rewrite !(lookup_insert_ne _ "$version") by congruence.
  rewrite !(lookup_insert_ne _ "$permissions") by congruence.
  rewrite !(lookup_insert_ne _ "$previous") by congruence.
  reflexivity.
Qed.

Lemma credential_ignores_citation_identity_witness :
  exists document1 document2,
    notarized (snd (@generateCredentials (Outage.notary Outage.byConsole true Unsent)
                      Scenario.start))
    = (notarized Scenario.start ++ [document1])%list
    /\ notarized (snd (@generateCredentials (Outage.notary Outage.byConsole true Unsent)
                         Outage.later))
       = (notarized Outage.later ++ [document2])%list
    /\ content document1 = content document2
    /\ forall key, parameter key document1 = parameter key document2.
Proof.
  exact (@credential_ignores_citation_identity
           (Outage.notary Outage.byConsole true Unsent)
           Scenario.start Outage.later Scenario.citation Outage.renewed _ _
           eq_refl eq_refl eq_refl eq_refl eq_refl eq_refl outage_lookup_agrees).
Defined.

Lemma session_identities_distinct_witness :
  exists minted,
    notarized (@session (Scenario.collaborators (Scenario.answer 200 "OK" EmptyString))
                 Scenario.base false
                 [ {| callOperation := SaveDraft; callIdentifier := "T1";
                      callDocument := Source "[$x: 1]" |};
                   {| callOperation := FetchDraft; callIdentifier := "T1";
                      callDocument := Absent |};
                   {| callOperation := DeleteDraft; callIdentifier := "T1";
                      callDocument := Absent |} ]
                 Scenario.start)
    = (notarized Scenario.start ++ minted)%list
    /\ identity <$> minted
       = (fun i => (Some (Tag ("#" ++ pretty i)), Some (Version "v1")))
         <$> seq 0 (length minted)
    /\ NoDup (identity <$> minted).
Proof.
  exact (@session_identities_distinct
           (Scenario.collaborators (Scenario.answer 200 "OK" EmptyString))
           Scenario.base false _ Scenario.start
           (scenario_tags_unique (Scenario.answer 200 "OK" EmptyString))).
Defined.
